(** * DefFinance: the Google-Sheets import function

    A shallow embedding of
    [supabase/functions/import-google-sheets/index.ts]: the cell parsers
    ([parseCurrency], [parseDate], [buildObservacao]), the row normalizer
    ([buildLancamentosEntrada]), the batching helper ([chunkArray]) and the
    request handler passed to [serve], which replaces every stored
    "Entrada" record by the freshly normalized ones.

    JavaScript strings are sequences of UTF-16 code units, numbers are
    IEEE-754 binary64 values, [undefined]/[null] is [None], and the two
    external collaborators (the Sheets endpoint and the store) are explicit
    inputs and an explicit state. *)

From Stdlib Require Import Ascii String Numbers.DecimalString.
From Stdlib Require Import List ZArith NArith Lia Bool.
From Stdlib Require Import Floats.SpecFloat.
Import ListNotations.

Set Implicit Arguments.

(* ================================================================= *)
(** ** JavaScript strings *)

(** A string is its list of UTF-16 code units. *)
Definition jsstring := list N.

(** An ASCII literal as a JavaScript string. *)
Definition str (s : string) : jsstring :=
  List.map N_of_ascii (list_ascii_of_string s).

Arguments str s%_string.

Definition jsstring_eqb (a b : jsstring) : bool :=
  if list_eq_dec N.eq_dec a b then true else false.

(** Truthiness of a [string | null | undefined] value: only a non-empty
    string is truthy. *)
Definition truthy (v : option jsstring) : bool :=
  match v with
  | Some (_ :: _) => true
  | _ => false
  end.

(** [a || b] where [b] is a string. *)
Definition or_string (v : option jsstring) (d : jsstring) : jsstring :=
  match v with
  | Some (c :: s) => c :: s
  | _ => d
  end.

(** [a || null]. *)
Definition or_null (v : option jsstring) : option jsstring :=
  if truthy v then v else None.

(** The code units [String.prototype.trim] removes: WhiteSpace and
    LineTerminator of ECMA-262 (TAB, LF, VT, FF, CR, SP, NBSP, the Zs
    category, LS, PS and the BOM). *)
Definition is_space (c : N) : bool :=
  ((9 <=? c) && (c <=? 13) || (c =? 32) || (c =? 160) || (c =? 5760)
   || (8192 <=? c) && (c <=? 8202) || (c =? 8232) || (c =? 8233)
   || (c =? 8239) || (c =? 8287) || (c =? 12288) || (c =? 65279))%N.

Fixpoint trimStart (s : jsstring) : jsstring :=
  match s with
  | c :: t => if is_space c then trimStart t else s
  | [] => []
  end.

Definition trimEnd (s : jsstring) : jsstring := rev (trimStart (rev s)).

Definition trim (s : jsstring) : jsstring := trimEnd (trimStart s).

(** [\d] of a JavaScript regular expression: the ten ASCII digits. *)
Definition is_digit (c : N) : bool := ((48 <=? c) && (c <=? 57))%N.

(** [s.replace(/c/g, "")] for a one-character class [keep]-complement. *)
Definition strip (keep : N -> bool) (s : jsstring) : jsstring := filter keep s.

(** [s.replace(c, d)] with a string pattern: the first occurrence only. *)
Fixpoint replace_first (c d : N) (s : jsstring) : jsstring :=
  match s with
  | [] => []
  | x :: t => if (x =? c)%N then d :: t else x :: replace_first c d t
  end.

(** The longest prefix whose code units satisfy [p], and the rest. *)
Fixpoint span (p : N -> bool) (s : jsstring) : jsstring * jsstring :=
  match s with
  | c :: t => if p c then let (a, b) := span p t in (c :: a, b) else ([], s)
  | [] => ([], [])
  end.

Fixpoint starts_with (p s : jsstring) : bool :=
  match p, s with
  | [], _ => true
  | a :: p', b :: s' => (a =? b)%N && starts_with p' s'
  | _ :: _, [] => false
  end.

(* ================================================================= *)
(** ** JavaScript numbers *)

(** A Number is a binary64 value. *)
Definition Number := spec_float.

Definition prec64 : Z := 53.
Definition emax64 : Z := 1024.

Definition Number_isFinite (x : Number) : bool :=
  match x with
  | S754_zero _ | S754_finite _ _ _ => true
  | _ => false
  end.

(** [x === 0]: both zeros are equal to [0]. *)
Definition is_zero (x : Number) : bool :=
  match x with
  | S754_zero _ => true
  | _ => false
  end.

Definition zero : Number := S754_zero false.

(** The integer a run of decimal digits denotes. *)
Definition digits_value (ds : jsstring) : Z :=
  fold_left (fun acc c => 10 * acc + (Z.of_N c - 48))%Z ds 0%Z.

(** The binary64 value nearest to [(-1)^neg * m * 10^e10], ties to even
    (the Number value of a mathematical value). For a negative exponent
    the quotient is taken with at least 64 significant bits and the
    position of the remainder is handed to the rounding function. *)
Definition decimal_to_Number (neg : bool) (m : Z) (e10 : Z) : Number :=
  if (m <=? 0)%Z then S754_zero neg
  else if (0 <=? e10)%Z then
    match (m * 10 ^ e10)%Z with
    | Zpos p => binary_round prec64 emax64 neg p 0
    | _ => S754_zero neg
    end
  else
    let d := (10 ^ (- e10))%Z in
    let sh := Z.max 0 (64 + Z.log2 d - Z.log2 m) in
    let n := (m * 2 ^ sh)%Z in
    let q := (n / d)%Z in
    let r := (n mod d)%Z in
    let l := if (r =? 0)%Z then loc_Exact else loc_Inexact (2 * r ?= d)%Z in
    binary_round_aux prec64 emax64 neg q (- sh) l.

(** An optional sign in front of a numeric literal. *)
Definition take_sign (s : jsstring) : bool * jsstring :=
  match s with
  | c :: t => if (c =? 45)%N then (true, t)
              else if (c =? 43)%N then (false, t) else (false, s)
  | [] => (false, [])
  end.

(** The value of an ExponentPart at the head of [s], 0 when there is none. *)
Definition exponent_part (s : jsstring) : Z :=
  match s with
  | c :: t =>
      if ((c =? 101) || (c =? 69))%N then
        let (eneg, t1) := take_sign t in
        let (ed, _) := span is_digit t1 in
        match ed with
        | [] => 0%Z
        | _ => if eneg then (- digits_value ed)%Z else digits_value ed
        end
      else 0%Z
  | [] => 0%Z
  end.

(** [Number.parseFloat]: leading white space is skipped, then the longest
    prefix that is a StrDecimalLiteral is converted; [NaN] when there is
    no such prefix. *)
Definition parseFloat (input : jsstring) : Number :=
  let (neg, s1) := take_sign (trimStart input) in
  if starts_with (str "Infinity") s1 then S754_infinity neg
  else
    let (ip, r1) := span is_digit s1 in
    let (fp, r2) :=
      match r1 with
      | c :: t => if (c =? 46)%N then span is_digit t else ([], r1)
      | [] => ([], r1)
      end in
    match ip ++ fp with
    | [] => S754_nan
    | ds => decimal_to_Number neg (digits_value ds)
              (exponent_part r2 - Z.of_nat (length fp))
    end.

(* ================================================================= *)
(** ** The cell parsers *)

Definition keep_numeric (c : N) : bool :=
  (is_digit c || (c =? 46) || (c =? 45))%N.

Definition normalize_currency (value : jsstring) : jsstring :=
  strip keep_numeric
    (replace_first 44 46 (strip (fun c => negb (c =? 46)%N) value)).

Definition parseCurrency (value : option jsstring) : Number :=
  if negb (truthy value) then zero
  else
    match value with
    | Some v =>
        let normalized := normalize_currency v in
        let parsed := parseFloat normalized in
        if Number_isFinite parsed then parsed else zero
    | None => zero
    end.

Definition parseDate (value : option jsstring) : option jsstring :=
  if negb (truthy value) then None
  else
    match value with
    | Some v =>
        let trimmed := trim v in
        if negb (truthy (Some trimmed)) then None
        else
          match trimmed with
          | [d1; d2; s1; m1; m2; s2; y1; y2; y3; y4] =>
              if forallb is_digit [d1; d2; m1; m2; y1; y2; y3; y4]
                 && (s1 =? 47)%N && (s2 =? 47)%N
              then Some ([y1; y2; y3; y4] ++ str "-" ++ [m1; m2]
                                         ++ str "-" ++ [d1; d2])
              else None
          | _ => None
          end
    | None => None
    end.

Definition buildObservacao (categoria parcela : option jsstring)
  : option jsstring :=
  let categoriaText := option_map trim categoria in
  let parcelaText := option_map trim parcela in
  match categoriaText, parcelaText with
  | Some (c :: cs), Some (p :: ps) =>
      Some ((c :: cs) ++ str " / " ++ (p :: ps))
  | _, _ =>
      if truthy categoriaText then categoriaText
      else if truthy parcelaText then parcelaText
      else None
  end.

(* ================================================================= *)
(** ** The row normalizer *)

(** [type RecebimentoRow = string[] | undefined]. *)
Definition RecebimentoRow := option (list jsstring).

(** [row[i]]: [undefined] past the end of the array. *)
Definition cell (row : list jsstring) (i : nat) : option jsstring :=
  nth_error row i.

(** The object pushed for an accepted row. [desc_pontual] is [None] when
    the key is not set. *)
Record Registro := mkRegistro {
  data : jsstring;
  tipo : jsstring;
  cliente_fornecedor : jsstring;
  descricao : jsstring;
  valor : Number;
  status : jsstring;
  unidade : option jsstring;
  obs : option jsstring;
  datapag : option jsstring;
  aluno : option jsstring;
  parcel : option jsstring;
  desc_pontual : option Number
}.

(** One turn of the [for (const row of rows)] loop: [None] is [continue],
    [Some registro] is [registros.push(registro)]. *)
Definition registro_of_row (row : RecebimentoRow) : option Registro :=
  match row with
  | None => None
  | Some row =>
      if length row <? 22 then None
      else
        let valorOriginal := parseCurrency (cell row 14) in
        let dataVencimento := parseDate (cell row 4) in
        if negb (truthy dataVencimento) || is_zero valorOriginal then None
        else
          match dataVencimento with
          | None => None
          | Some vencimento =>
              let dataBaixa := parseDate (cell row 5) in
              let status := if truthy dataBaixa then str "Pago"
                            else str "A Vencer" in
              let descPontual := parseCurrency (cell row 16) in
              Some {|
                data := vencimento;
                tipo := str "Entrada";
                cliente_fornecedor :=
                  or_string (option_map trim (cell row 0))
                            (str "Sem identificacao");
                descricao := or_string (option_map trim (cell row 12)) [];
                valor := valorOriginal;
                status := status;
                unidade := or_null (option_map trim (cell row 21));
                obs := buildObservacao (cell row 11) (cell row 13);
                datapag := dataBaixa;
                aluno := or_null (option_map trim (cell row 3));
                parcel := or_null (option_map trim (cell row 13));
                desc_pontual := if negb (is_zero descPontual)
                                then Some descPontual else None
              |}
          end
  end.

Fixpoint push_rows (rows : list RecebimentoRow) (registros : list Registro)
  : list Registro :=
  match rows with
  | [] => registros
  | row :: rest =>
      match registro_of_row row with
      | None => push_rows rest registros
      | Some registro => push_rows rest (registros ++ [registro])
      end
  end.

(** [values] is always an array here, so [!values] is never true. *)
Definition buildLancamentosEntrada (values : list RecebimentoRow)
  : list Registro :=
  if length values <=? 1 then []
  else push_rows (skipn 1 values) [].

(* ================================================================= *)
(** ** Batching *)

(** [items.slice(a, b)] for [0 <= a <= b]. *)
Definition slice {T} (items : list T) (a b : nat) : list T :=
  firstn (b - a) (skipn a items).

(** The [for (let i = 0; i < items.length; i += size)] loop. The loop
    does not end when [size = 0]; [fuel] bounds the number of turns and
    [None] stands for a loop that is still running when it is used up. *)
Fixpoint chunk_loop {T} (fuel : nat) (items : list T) (size i : nat)
  (chunks : list (list T)) : option (list (list T)) :=
  match fuel with
  | O => None
  | S fuel' =>
      if i <? length items
      then chunk_loop fuel' items size (i + size)
                      (chunks ++ [slice items i (i + size)])
      else Some chunks
  end.

Definition chunkArray {T} (items : list T) (size : nat)
  : option (list (list T)) :=
  if length items <=? size then Some [items]
  else chunk_loop (S (length items)) items size 0 [].

(* ================================================================= *)
(** ** The store and the Sheets endpoint *)

(** The calls the function makes on the [lancamentos] table. *)
Inductive StoreCall :=
| CallDeleteEq (column value : jsstring)
| CallInsert (lote : list Registro).

(** The world a run acts on: the rows of the [lancamentos] table, the
    outcome the store will give to each of its next calls ([None]: the
    call succeeds, [Some message]: it returns [{ error }]; calls past the
    end of the list succeed), and the calls made so far. *)
Record World := mkWorld {
  table : list Registro;
  pending : list (option jsstring);
  calls : list StoreCall
}.

Definition next_outcome (w : World) : option jsstring * list (option jsstring) :=
  match pending w with
  | [] => (None, [])
  | o :: rest => (o, rest)
  end.

(** Modelled from the spec: the downstream store is an external service;
    its delete removes the rows whose [tipo] equals the given value, its
    batch insert appends the batch, and a call that fails changes no row
    (section 6: a rejected batch fails as a whole). *)
Definition store_delete_tipo_eq (value : jsstring) (w : World)
  : option jsstring * World :=
  let (error, rest) := next_outcome w in
  let log := calls w ++ [CallDeleteEq (str "tipo") value] in
  match error with
  | Some message => (Some message, mkWorld (table w) rest log)
  | None =>
      (None,
       mkWorld (filter (fun r => negb (jsstring_eqb (tipo r) value)) (table w))
               rest log)
  end.

Definition store_insert (lote : list Registro) (w : World)
  : option jsstring * World :=
  let (error, rest) := next_outcome w in
  let log := calls w ++ [CallInsert lote] in
  match error with
  | Some message => (Some message, mkWorld (table w) rest log)
  | None => (None, mkWorld (table w ++ lote) rest log)
  end.

(** What the single GET on the Sheets endpoint comes back with. *)
Inductive SheetsReply :=
| ReplyRejected (message : jsstring)
| ReplyNotOk (code : nat) (statusText details : jsstring)
| ReplyWithoutValues
| ReplyValues (values : list RecebimentoRow).

(* ================================================================= *)
(** ** The request handler *)

(** A thrown value: an [Error] with its message, or anything else. *)
Inductive Exception :=
| ErrorObject (message : jsstring)
| OtherValue.

Inductive Completion (A : Type) :=
| Normal (a : A)
| Throw (e : Exception).

Arguments Normal {A} a.
Arguments Throw {A} e.

(** A computation of the handler: it acts on the world and completes
    normally or by a throw; [None] is a computation that does not end. *)
Definition Run (A : Type) := World -> option (Completion A * World).

Definition ret {A} (a : A) : Run A := fun w => Some (Normal a, w).

Definition throw {A} (e : Exception) : Run A := fun w => Some (Throw e, w).

Definition bind {A B} (c : Run A) (k : A -> Run B) : Run B :=
  fun w =>
    match c w with
    | None => None
    | Some (Normal a, w') => k a w'
    | Some (Throw e, w') => Some (Throw e, w')
    end.

Definition call {A} (op : World -> A * World) : Run A :=
  fun w => let (a, w') := op w in Some (Normal a, w').

Definition ended {A} (r : option A) : Run A :=
  fun w => match r with Some a => Some (Normal a, w) | None => None end.

Notation "x <- c ;; k" := (bind c (fun x => k))
  (at level 61, c at next level, right associativity).

(** The decimal digits of an array length or an HTTP status. *)
Definition decimal (n : nat) : jsstring :=
  str (NilEmpty.string_of_uint (Nat.to_uint n)).

Definition fetchSheetData (reply : SheetsReply) : Run (list RecebimentoRow) :=
  match reply with
  | ReplyRejected message => throw (ErrorObject message)
  | ReplyNotOk code statusText details =>
      throw (ErrorObject (str "Google Sheets request failed: " ++ decimal code
                            ++ str " " ++ statusText ++ str " - " ++ details))
  | ReplyWithoutValues =>
      throw (ErrorObject
               (str "Google Sheets response is missing the 'values' array."))
  | ReplyValues values => ret values
  end.

Record Payload := mkPayload {
  success : bool;
  message : jsstring;
  total_importado : option nat
}.

Inductive Body :=
| TextBody (text : jsstring)
| JsonBody (payload : Payload).

Record Response := mkResponse {
  resp_body : Body;
  resp_status : nat
}.

Definition jsonResponse (payload : Payload) (status : nat) : Response :=
  mkResponse (JsonBody payload) status.

(** The template literals of the three messages. *)
Definition delete_failure (message : jsstring) : jsstring :=
  str "Falha ao apagar lan" ++ [231%N] ++ str "amentos de entrada: "
    ++ message.

Definition insert_failure (message : jsstring) : jsstring :=
  str "Falha ao inserir lan" ++ [231%N] ++ str "amentos: " ++ message.

Definition import_message (n : nat) : jsstring :=
  str "Importa" ++ [231%N; 227%N] ++ str "o conclu" ++ [237%N]
    ++ str "da com " ++ decimal n ++ str " lan" ++ [231%N]
    ++ str "amentos de entrada.".

Fixpoint insert_lotes (batches : list (list Registro)) : Run unit :=
  match batches with
  | [] => ret tt
  | lote :: rest =>
      insertError <- call (store_insert lote) ;;
      match insertError with
      | Some message =>
          throw (ErrorObject (insert_failure message))
      | None => insert_lotes rest
      end
  end.

(** The body of the [try] block. *)
Definition import_entradas (reply : SheetsReply) : Run Response :=
  values <- fetchSheetData reply ;;
  let registros := buildLancamentosEntrada values in
  deleteError <- call (store_delete_tipo_eq (str "Entrada")) ;;
  match deleteError with
  | Some message =>
      throw (ErrorObject (delete_failure message))
  | None =>
      _ <- (if 0 <? length registros then
              batches <- ended (chunkArray registros 500) ;;
              insert_lotes batches
            else ret tt) ;;
      ret (jsonResponse
             (mkPayload true (import_message (length registros))
                        (Some (length registros)))
             200)
  end.

(** The [catch] block. *)
Definition failure_response (e : Exception) : Response :=
  jsonResponse
    (mkPayload false
       match e with
       | ErrorObject message => message
       | OtherValue => str "Erro inesperado na importa" ++ [231%N; 227%N]
                         ++ str "o."
       end
       None)
    500.

(** The handler given to [serve], for a request with the given method. *)
Definition serve (method : jsstring) (reply : SheetsReply) (w : World)
  : option (Response * World) :=
  if jsstring_eqb method (str "OPTIONS") then
    Some (mkResponse (TextBody (str "ok")) 200, w)
  else if negb (jsstring_eqb method (str "POST")) then
    Some (jsonResponse (mkPayload false (str "Method not allowed") None) 405, w)
  else
    match import_entradas reply w with
    | None => None
    | Some (Normal response, w') => Some (response, w')
    | Some (Throw e, w') => Some (failure_response e, w')
    end.

(* ================================================================= *)
(** ** The properties of the specification, in its words *)

(** The shape [DD/MM/YYYY]: ten characters, digits everywhere but the two
    slashes. *)
Definition is_DDMMYYYY (s : jsstring) : bool :=
  (length s =? 10)
  && forallb is_digit (firstn 2 s ++ firstn 2 (skipn 3 s) ++ skipn 6 s)
  && (nth 2 s 0 =? 47)%N && (nth 5 s 0 =? 47)%N.

(** The ISO form [YYYY-MM-DD] of a text of the shape [DD/MM/YYYY]. *)
Definition iso_of (s : jsstring) : jsstring :=
  skipn 6 s ++ str "-" ++ firstn 2 (skipn 3 s) ++ str "-" ++ firstn 2 s.

(** The shape [YYYY-MM-DD]. *)
Definition is_ISO_shape (s : jsstring) : bool :=
  (length s =? 10)
  && forallb is_digit (firstn 4 s ++ firstn 2 (skipn 5 s) ++ skipn 8 s)
  && (nth 4 s 0 =? 45)%N && (nth 7 s 0 =? 45)%N.

(** Calendar validity of a text of the shape [YYYY-MM-DD]. *)
Definition leap_year (y : Z) : bool :=
  ((y mod 4 =? 0) && negb (y mod 100 =? 0) || (y mod 400 =? 0))%Z.

Definition days_in_month (y m : Z) : Z :=
  if (m =? 2)%Z then (if leap_year y then 29 else 28)%Z
  else if ((m =? 4) || (m =? 6) || (m =? 9) || (m =? 11))%Z then 30%Z
  else 31%Z.

Definition valid_iso_date (s : jsstring) : bool :=
  is_ISO_shape s
  && (let y := digits_value (firstn 4 s) in
      let m := digits_value (firstn 2 (skipn 5 s)) in
      let d := digits_value (skipn 8 s) in
      (1 <=? m)%Z && (m <=? 12)%Z && (1 <=? d)%Z
      && (d <=? days_in_month y m)%Z).

Definition is_some {A} (o : option A) : bool :=
  match o with
  | Some _ => true
  | None => false
  end.

(** A cell after trimming, an absent cell counting as empty. *)
Definition trimmed (c : option jsstring) : jsstring :=
  match c with
  | Some s => trim s
  | None => []
  end.

(** The rows the specification keeps: at least 22 cells, a due date that
    parses and an amount that parses to a value other than zero. *)
Definition included (row : RecebimentoRow) : bool :=
  match row with
  | Some cells =>
      (22 <=? length cells)
      && is_some (parseDate (cell cells 4))
      && negb (is_zero (parseCurrency (cell cells 14)))
  | None => false
  end.

(** Decimal text: digits, ['-'] and at most one ['.']. *)
Definition decimal_text (t : jsstring) : bool :=
  forallb keep_numeric t && (length (filter (N.eqb 46) t) <=? 1).

(** The same text written with a decimal comma. *)
Definition with_comma (t : jsstring) : jsstring :=
  map (fun c => if (c =? 46)%N then 44%N else c) t.

(** The Number [1234.56]. *)
Definition n1234_56 : Number := S754_finite false 5429652300748554 (-42).

Definition n123456 : Number := S754_finite false 8483831719919616 (-36).

Definition not_entrada (r : Registro) : bool :=
  negb (jsstring_eqb (tipo r) (str "Entrada")).

(** A call that touches no row of another category. *)
Definition entrada_call (c : StoreCall) : Prop :=
  match c with
  | CallDeleteEq column value => column = str "tipo" /\ value = str "Entrada"
  | CallInsert lote => Forall (fun r => tipo r = str "Entrada") lote
  end.

(** The records one row adds to the output. *)
Definition emitted (row : RecebimentoRow) : list Registro :=
  match registro_of_row row with
  | Some registro => [registro]
  | None => []
  end.

Definition delete_entradas : StoreCall :=
  CallDeleteEq (str "tipo") (str "Entrada").

(** What a run leaves of the world [w]: the rows of other categories are
    as they were, and the calls added all bear on the "Entrada" rows. *)
Definition frames (w w' : World) : Prop :=
  filter not_entrada (table w') = filter not_entrada (table w)
  /\ exists added, calls w' = calls w ++ added /\ Forall entrada_call added.

(* ================================================================= *)
(** ** Sample inputs *)

(** A sheet row of 22 cells with the given due date, payment date and
    amount. *)
Definition sample_row (due pay amount : string) : RecebimentoRow :=
  Some [str "Maria Souza "; str "b"; str "c"; str "Ana"; str due; str pay;
        str "g"; str "h"; str "i"; str "j"; str "k"; str "Mensalidade";
        str "Fevereiro"; str "2/12"; str amount; str "p"; str "10,00";
        str "r"; str "s"; str "t"; str "u"; str "Centro"].

Definition sample_header : RecebimentoRow := Some [str "Cliente"].

Definition sample_values : list RecebimentoRow :=
  [sample_header;
   sample_row "01/02/2024" "" "150,00";
   sample_row " 05/03/2024" "04/03/2024" "1.234,56";
   sample_row "06/03/2024" "" "0";
   Some [str "07/03/2024"; str "x"]].

(** The record of the third row of [sample_values]. *)
Definition sample_registro_pago : Registro :=
  {| data := str "2024-03-05";
     tipo := str "Entrada";
     cliente_fornecedor := str "Maria Souza";
     descricao := str "Fevereiro";
     valor := n1234_56;
     status := str "Pago";
     unidade := Some (str "Centro");
     obs := Some (str "Mensalidade / 2/12");
     datapag := Some (str "2024-03-04");
     aluno := Some (str "Ana");
     parcel := Some (str "2/12");
     desc_pontual := Some (S754_finite false 5629499534213120 (-49)) |}.

(** A sheet of a header row and 1,200 rows that all pass the normalizer. *)
Definition sample_values_1200 : list RecebimentoRow :=
  sample_header :: repeat (sample_row "01/02/2024" "" "150,00") 1200.

(* ================================================================= *)
(** ** Module start-up *)

(** [Deno.env.get]: the value of a variable, [None] when it is not set. *)
Definition Env := jsstring -> option jsstring.

Record Config := mkConfig {
  supabaseUrl : jsstring;
  supabaseServiceRoleKey : jsstring;
  googleApiKey : jsstring;
  recebimentosSheetId : jsstring;
  recebimentosRange : jsstring
}.

Definition not_defined (name : string) : jsstring :=
  str "Environment variable " ++ str name ++ str " is not defined.".

(** The top-level statements of the module: the five reads, then the four
    checks in their order; [inl] is the message of the [Error] thrown. *)
Definition module_start (env : Env) : jsstring + Config :=
  let url := env (str "SUPABASE_URL") in
  let key := env (str "SUPABASE_SERVICE_ROLE_KEY") in
  let api := env (str "GOOGLE_API_KEY") in
  let sheet := env (str "GOOGLE_SHEET_RECEBIMENTOS_ID") in
  let range :=
    match env (str "GOOGLE_SHEET_RECEBIMENTOS_RANGE") with
    | Some r => r
    | None => str "A:V"
    end in
  match url with
  | Some (u :: us) =>
      match key with
      | Some (k :: ks) =>
          match api with
          | Some (a :: az) =>
              match sheet with
              | Some (i :: ids) =>
                  inr (mkConfig (u :: us) (k :: ks) (a :: az) (i :: ids) range)
              | _ => inl (not_defined "GOOGLE_SHEET_RECEBIMENTOS_ID")
              end
          | _ => inl (not_defined "GOOGLE_API_KEY")
          end
      | _ => inl (not_defined "SUPABASE_SERVICE_ROLE_KEY")
      end
  | _ => inl (not_defined "SUPABASE_URL")
  end.

(* ================================================================= *)
(** ** Further notions used in the statements *)

(** Text of white space only. *)
Definition blank (s : jsstring) : bool := forallb is_space s.

(** Text with no white space at either end. *)
Definition no_outer_space (s : jsstring) : bool :=
  match s with
  | [] => true
  | c :: _ => negb (is_space c) && negb (is_space (last s c))
  end.

(** The characters of an amount cell that reach the number: digits,
    commas and ['-']. *)
Definition significant (c : N) : bool :=
  (is_digit c || (c =? 44) || (c =? 45))%N.

(** The text [DD/MM/YYYY] of an ISO date [YYYY-MM-DD]. *)
Definition ddmmyyyy_of (iso : jsstring) : jsstring :=
  skipn 8 iso ++ str "/" ++ firstn 2 (skipn 5 iso) ++ str "/" ++ firstn 4 iso.

(** [x === y] on numbers: the two zeros are equal, [NaN] equals nothing. *)
Definition strict_equal (x y : Number) : bool := SFeqb x y.

(** The inserts of a list of batches, as store calls. *)
Definition insert_calls (batches : list (list Registro)) : list StoreCall :=
  map CallInsert batches.

(** A world whose store lets every call succeed. *)
Definition healthy (w : World) : Prop :=
  Forall (fun o => o = None) (pending w).

(* ================================================================= *)
(** ** The date rule *)

Lemma parseDate_trimmed (cell : jsstring) :
  parseDate (Some cell) =
  if is_DDMMYYYY (trim cell) then Some (iso_of (trim cell)) else None.
Proof.
  unfold parseDate.
  destruct cell as [|c0 cell0]; [reflexivity|].
  cbn [truthy negb].
  remember (trim (c0 :: cell0)) as t eqn:Et. clear Et.
  destruct t as [|d1 t]; [reflexivity|]. cbn [truthy negb].
  destruct t as [|d2 t]; [reflexivity|].
  destruct t as [|s1 t]; [reflexivity|].
  destruct t as [|m1 t]; [reflexivity|].
  destruct t as [|m2 t]; [reflexivity|].
  destruct t as [|s2 t]; [reflexivity|].
  destruct t as [|y1 t]; [reflexivity|].
  destruct t as [|y2 t]; [reflexivity|].
  destruct t as [|y3 t]; [reflexivity|].
  destruct t as [|y4 t]; [reflexivity|].
  destruct t as [|z t].
  - unfold is_DDMMYYYY, iso_of.
    cbn [length Nat.eqb firstn skipn nth app andb forallb].
    destruct (is_digit d1), (is_digit d2), (is_digit m1), (is_digit m2),
      (is_digit y1), (is_digit y2), (is_digit y3), (is_digit y4),
      (s1 =? 47)%N, (s2 =? 47)%N; reflexivity.
  - reflexivity.
Qed.

Lemma parseDate_nonempty (value : option jsstring) (d : jsstring) :
  parseDate value = Some d -> d <> [].
Proof.
  destruct value as [v|]; [|discriminate].
  rewrite parseDate_trimmed.
  destruct (is_DDMMYYYY (trim v)); [|discriminate].
  intros H; injection H as <-. unfold iso_of.
  destruct (skipn 6 (trim v)); discriminate.
Qed.

Lemma truthy_parseDate (value : option jsstring) :
  truthy (parseDate value) = is_some (parseDate value).
Proof.
  destruct (parseDate value) as [d|] eqn:E; [|reflexivity].
  apply parseDate_nonempty in E. destruct d; [congruence|reflexivity].
Qed.

Lemma iso_of_shape (s : jsstring) :
  is_DDMMYYYY s = true -> is_ISO_shape (iso_of s) = true.
Proof.
  unfold is_DDMMYYYY.
  do 11 (destruct s as [|? s]; try discriminate).
  unfold is_ISO_shape, iso_of.
  cbn [length Nat.eqb firstn skipn nth app andb forallb str map
       list_ascii_of_string N_of_ascii N_of_digits].
  repeat match goal with |- context [is_digit ?c] =>
    destruct (is_digit c); cbn [andb]; try discriminate end.
  intros _. reflexivity.
Qed.

(** C7 (as the code has it). The date rule trims the cell first: a value
    is accepted exactly when the cell, with the white space around it
    removed, has the shape DD/MM/YYYY (anchored at both ends); the result
    is then the ISO form YYYY-MM-DD of the trimmed text, and every other
    value, an absent cell included, yields absent. *)
Theorem parseDate_accepts_trimmed_shape :
  forall (value : option jsstring) (iso : jsstring),
    (parseDate value = Some iso <->
     exists c, value = Some c /\ is_DDMMYYYY (trim c) = true
               /\ iso = iso_of (trim c))
    /\ (parseDate value = Some iso -> is_ISO_shape iso = true).
Proof.
  intros value iso.
  assert (E : parseDate value = Some iso <->
              exists c, value = Some c /\ is_DDMMYYYY (trim c) = true
                        /\ iso = iso_of (trim c)).
  { destruct value as [c|].
    - rewrite parseDate_trimmed. split.
      + destruct (is_DDMMYYYY (trim c)) eqn:S; [|discriminate].
        intros H; injection H as <-. exists c. auto.
      + intros (c' & Hc & S & ->). injection Hc as <-. now rewrite S.
    - split; [discriminate|]. intros (c & Hc & _). discriminate. }
  split; [exact E|].
  intros H. apply E in H. destruct H as (c & _ & S & ->).
  now apply iso_of_shape.
Qed.

(** C7 (as stated) fails: a cell with a space in front of the date does
    not have the shape DD/MM/YYYY, and the date rule accepts it. *)
Lemma parseDate_padded_cell_accepted :
  is_DDMMYYYY (str " 01/02/2024") = false
  /\ parseDate (Some (str " 01/02/2024")) = Some (str "2024-02-01").
Proof. split; reflexivity. Qed.

(* ================================================================= *)
(** ** The note *)

Lemma buildObservacao_cases (categoria parcela : option jsstring) :
  buildObservacao categoria parcela =
  match trimmed categoria, trimmed parcela with
  | [], [] => None
  | [], p => Some p
  | c, [] => Some c
  | c, p => Some (c ++ str " / " ++ p)
  end.
Proof.
  unfold buildObservacao.
  destruct categoria as [c|], parcela as [p|]; cbn [option_map trimmed truthy].
  - destruct (trim c), (trim p); reflexivity.
  - destruct (trim c); reflexivity.
  - destruct (trim p); reflexivity.
  - reflexivity.
Qed.

Lemma buildObservacao_nonempty (categoria parcela : option jsstring) :
  buildObservacao categoria parcela <> Some [].
Proof.
  rewrite buildObservacao_cases.
  destruct (trimmed categoria), (trimmed parcela); discriminate.
Qed.

Lemma registro_of_row_obs (row : list jsstring) (r : Registro) :
  registro_of_row (Some row) = Some r ->
  obs r = buildObservacao (cell row 11) (cell row 13).
Proof.
  unfold registro_of_row.
  destruct (length row <? 22); [discriminate|].
  destruct (negb _ || _); [discriminate|].
  destruct (parseDate (cell row 4)); [|discriminate].
  intros H; injection H as <-. reflexivity.
Qed.

(** C8. The note of a category cell and an installment cell, each taken
    trimmed (an absent cell is empty): both non-empty, the two joined by
    " / "; one non-empty, that one; none, null. The note is never the
    empty string, also in every record the normalizer emits, whose note is
    built from cells 11 and 13 of its row. *)
Theorem buildObservacao_join_with_fallback :
  forall categoria parcela : option jsstring,
    let c := trimmed categoria in
    let p := trimmed parcela in
    (c <> [] -> p <> [] ->
     buildObservacao categoria parcela = Some (c ++ str " / " ++ p))
    /\ (c <> [] -> p = [] -> buildObservacao categoria parcela = Some c)
    /\ (c = [] -> p <> [] -> buildObservacao categoria parcela = Some p)
    /\ (c = [] -> p = [] -> buildObservacao categoria parcela = None)
    /\ buildObservacao categoria parcela <> Some []
    /\ (forall row r, registro_of_row (Some row) = Some r ->
          obs r = buildObservacao (cell row 11) (cell row 13)
          /\ obs r <> Some []).
Proof.
  intros categoria parcela c p.
  rewrite buildObservacao_cases. fold c p. clearbody c p.
  split; [|split; [|split; [|split; [|split]]]].
  - intros Hc Hp. destruct c, p; easy.
  - intros Hc ->. destruct c; easy.
  - intros -> Hp. destruct p; easy.
  - intros -> ->. reflexivity.
  - destruct c, p; discriminate.
  - intros row r H. apply registro_of_row_obs in H.
    split; [exact H|]. rewrite H. apply buildObservacao_nonempty.
Qed.

Lemma buildObservacao_join_with_fallback_witness :
  buildObservacao (Some (str " Mensalidade ")) (Some (str "2/12"))
  = Some (str "Mensalidade / 2/12")
  /\ buildObservacao (Some (str "Mensalidade")) (Some (str "  "))
     = Some (str "Mensalidade")
  /\ buildObservacao None (Some (str "2/12")) = Some (str "2/12")
  /\ buildObservacao (Some (str " ")) None = None.
Proof.
  split; [|split; [|split]].
  - apply (buildObservacao_join_with_fallback
             (Some (str " Mensalidade ")) (Some (str "2/12")));
      discriminate.
  - apply (buildObservacao_join_with_fallback
             (Some (str "Mensalidade")) (Some (str "  ")));
      [discriminate | reflexivity].
  - apply (buildObservacao_join_with_fallback None (Some (str "2/12")));
      [reflexivity | discriminate].
  - apply (buildObservacao_join_with_fallback (Some (str " ")) None);
      reflexivity.
Defined.

(* ================================================================= *)
(** ** The currency rule *)

(** [n1234_56] is the binary64 value nearest to 1234.56: its significand
    has 53 bits and it lies within half a unit in the last place. *)
Lemma n1234_56_nearest :
  n1234_56 = S754_finite false 5429652300748554 (-42)
  /\ (2 ^ 52 <= 5429652300748554 < 2 ^ 53)%Z
  /\ (2 * Z.abs (5429652300748554 * 100 - 123456 * 2 ^ 42) <= 100)%Z.
Proof. repeat split; vm_compute; congruence. Qed.

(** Known binary64 values: a tie-sensitive decimal, the smallest
    subnormal, the largest finite value and the first text that
    overflows. *)
Example parseFloat_known_values :
  parseFloat (str "0.1") = S754_finite false 7205759403792794 (-56)
  /\ parseFloat (str "1e23") = S754_finite false 5960464477539062 24
  /\ parseFloat (str "9007199254740993")
     = S754_finite false 4503599627370496 1
  /\ parseFloat (str "5e-324") = S754_finite false 1 (-1074)
  /\ parseFloat (str "1.7976931348623157e308")
     = S754_finite false 9007199254740991 971
  /\ parseFloat (str "1.7976931348623159e308") = S754_infinity false
  /\ parseFloat (str "-0") = S754_zero true
  /\ parseFloat (str "  12abc") = S754_finite false 6755399441055744 (-49)
  /\ parseFloat (str "-.") = S754_nan.
Proof. repeat split; vm_compute; reflexivity. Qed.

Lemma parseCurrency_finite (value : option jsstring) :
  Number_isFinite (parseCurrency value) = true.
Proof.
  unfold parseCurrency. destruct (negb (truthy value)); [reflexivity|].
  destruct value as [v|]; [|reflexivity].
  destruct (Number_isFinite (parseFloat (normalize_currency v))) eqn:E;
    [exact E | reflexivity].
Qed.

Lemma span_not_digit (s : jsstring) :
  forallb (fun c => negb (is_digit c)) s = true -> span is_digit s = ([], s).
Proof.
  destruct s as [|c s]; [reflexivity|]. cbn [forallb span].
  destruct (is_digit c); [discriminate | reflexivity].
Qed.

Lemma sign_or_point (c : N) :
  keep_numeric c = true -> is_digit c = false -> c = 45%N \/ c = 46%N.
Proof.
  unfold keep_numeric. intros K D. rewrite D in K. cbn [orb] in K.
  apply orb_true_iff in K. destruct K as [K|K]; apply N.eqb_eq in K; auto.
Qed.

(** Text made of ['-'] and ['.'] alone has no numeric prefix. *)
Lemma parseFloat_no_digit (t : jsstring) :
  forallb keep_numeric t = true ->
  forallb (fun c => negb (is_digit c)) t = true ->
  parseFloat t = S754_nan.
Proof.
  assert (tail : forall s, forallb keep_numeric s = true ->
                 forallb (fun c => negb (is_digit c)) s = true ->
                 starts_with (str "Infinity") s = false /\
                 (let (ip, r1) := span is_digit s in
                  let (fp, r2) :=
                    match r1 with
                    | c :: t => if (c =? 46)%N then span is_digit t else ([], r1)
                    | [] => ([], r1)
                    end in ip ++ fp) = []).
  { intros s K D. rewrite (span_not_digit s D).
    destruct s as [|c s]; [split; reflexivity|].
    cbn [forallb] in K, D.
    apply andb_true_iff in K; destruct K as [Kc Ks].
    apply andb_true_iff in D; destruct D as [Dc Ds].
    apply negb_true_iff in Dc.
    destruct (sign_or_point c Kc Dc) as [-> | ->]; split; try reflexivity.
    cbn [N.eqb Pos.eqb]. now rewrite (span_not_digit s Ds). }
  intros K D. unfold parseFloat.
  destruct t as [|c t]; [reflexivity|].
  pose proof K as K'. pose proof D as D'.
  cbn [forallb] in K', D'.
  apply andb_true_iff in K'; destruct K' as [Kc Ks].
  apply andb_true_iff in D'; destruct D' as [Dc Ds].
  apply negb_true_iff in Dc.
  destruct (sign_or_point c Kc Dc) as [-> | ->].
  - cbn [trimStart is_space take_sign N.eqb Pos.eqb N.leb N.compare
         Pos.compare Pos.compare_cont andb orb].
    destruct (tail t Ks Ds) as [I E]. rewrite I.
    destruct (span is_digit t) as [ip r1].
    destruct (match r1 with
              | c :: t0 => if (c =? 46)%N then span is_digit t0 else ([], r1)
              | [] => ([], r1) end) as [fp r2].
    cbn in E. now rewrite E.
  - change (trimStart (46%N :: t)) with (46%N :: t).
    change (take_sign (46%N :: t)) with (false, 46%N :: t).
    destruct (tail (46%N :: t) K D) as [I E]. rewrite I.
    destruct (span is_digit (46%N :: t)) as [ip r1].
    destruct (match r1 with
              | c :: t0 => if (c =? 46)%N then span is_digit t0 else ([], r1)
              | [] => ([], r1) end) as [fp r2].
    cbn in E. now rewrite E.
Qed.

Lemma normalize_currency_numeric (s : jsstring) :
  forallb keep_numeric (normalize_currency s) = true.
Proof.
  unfold normalize_currency, strip. apply forallb_forall.
  intros c H. now apply filter_In in H.
Qed.

Lemma replace_first_no_digit (s : jsstring) :
  forallb (fun c => negb (is_digit c)) s = true ->
  forallb (fun c => negb (is_digit c)) (replace_first 44 46 s) = true.
Proof.
  induction s as [|c s IH]; [reflexivity|].
  cbn [forallb replace_first]. intros H.
  apply andb_true_iff in H; destruct H as [Hc Hs].
  destruct (c =? 44)%N; cbn [forallb].
  - now rewrite Hs.
  - now rewrite Hc, IH.
Qed.

Lemma filter_no_digit (keep : N -> bool) (s : jsstring) :
  forallb (fun c => negb (is_digit c)) s = true ->
  forallb (fun c => negb (is_digit c)) (filter keep s) = true.
Proof.
  rewrite !forallb_forall. intros H c Hc. apply H.
  now apply filter_In in Hc.
Qed.

(** Text without a digit parses to zero. *)
Lemma parseCurrency_no_digit (s : jsstring) :
  forallb (fun c => negb (is_digit c)) s = true ->
  parseCurrency (Some s) = zero.
Proof.
  intros D. unfold parseCurrency.
  destruct (negb (truthy (Some s))); [reflexivity|].
  rewrite parseFloat_no_digit; [reflexivity | apply normalize_currency_numeric |].
  unfold normalize_currency, strip.
  now apply filter_no_digit, replace_first_no_digit, filter_no_digit.
Qed.

Lemma with_comma_no_point (t : jsstring) :
  filter (N.eqb 46) t = [] -> with_comma t = t.
Proof.
  induction t as [|c t IH]; [reflexivity|]. cbn [filter with_comma map].
  rewrite (N.eqb_sym 46 c). destruct (c =? 46)%N; [discriminate|].
  intros H. f_equal. now apply IH.
Qed.

Lemma strip_points_no_point (t : jsstring) :
  forallb keep_numeric t = true ->
  filter (N.eqb 46) t = [] ->
  strip (fun c => negb (c =? 46)%N) t = t
  /\ replace_first 44 46 t = t.
Proof.
  induction t as [|c t IH]; [split; reflexivity|].
  cbn [forallb filter strip replace_first]. intros K P.
  apply andb_true_iff in K; destruct K as [Kc Kt].
  rewrite (N.eqb_sym 46 c) in P.
  destruct (c =? 46)%N eqn:E46; [discriminate|]. cbn [negb].
  destruct (IH Kt P) as [S R]. unfold strip in S. rewrite S.
  destruct (c =? 44)%N eqn:E44.
  - apply N.eqb_eq in E44. subst c. discriminate.
  - now rewrite R.
Qed.

(** On decimal text written with a comma the three replacements give the
    text back with its decimal point. *)
Lemma normalize_with_comma (t : jsstring) :
  decimal_text t = true -> normalize_currency (with_comma t) = t.
Proof.
  unfold decimal_text, normalize_currency. intros H.
  apply andb_true_iff in H; destruct H as [K P]. apply Nat.leb_le in P.
  assert (F : strip keep_numeric t = t).
  { unfold strip. clear P. induction t as [|c t IH]; [reflexivity|].
    cbn [forallb filter] in *. apply andb_true_iff in K; destruct K as [-> Kt].
    f_equal. now apply IH. }
  rewrite <- F at 2. f_equal. clear F.
  induction t as [|c t IH]; [reflexivity|].
  cbn [forallb filter with_comma map strip] in *.
  apply andb_true_iff in K; destruct K as [Kc Kt].
  rewrite (N.eqb_sym 46 c) in P.
  destruct (c =? 46)%N eqn:E46.
  - apply N.eqb_eq in E46. subst c. cbn [N.eqb Pos.eqb negb replace_first].
    cbn [length] in P.
    assert (Z0 : filter (N.eqb 46) t = []).
    { destruct (filter (N.eqb 46) t); [reflexivity | cbn [length] in P; lia]. }
    fold (with_comma t). rewrite (with_comma_no_point t Z0).
    destruct (strip_points_no_point t Kt Z0) as [S _]. unfold strip in S.
    now rewrite S.
  - rewrite E46. cbn [negb replace_first].
    destruct (c =? 44)%N eqn:E44.
    + apply N.eqb_eq in E44. subst c. discriminate.
    + f_equal. apply IH; assumption.
Qed.

Lemma parseCurrency_with_comma (t : jsstring) :
  decimal_text t = true ->
  Number_isFinite (parseFloat t) = true ->
  parseCurrency (Some (with_comma t)) = parseFloat t.
Proof.
  intros D F. unfold parseCurrency.
  destruct t as [|c t]; [discriminate F|].
  change (truthy (Some (with_comma (c :: t)))) with true. cbn [negb].
  rewrite (normalize_with_comma _ D). now rewrite F.
Qed.

(** C3 (as the code has it). Parsing "1234,56" and "1.234,56" yields
    1234.56; parsing "", an absent cell or text without a digit yields 0.
    A point is always removed as a thousands separator, so parsing is
    idempotent on the rendering with a decimal comma: for every input,
    any decimal text that reads back as the parse result, written with a
    comma for its point, parses to the same number. *)
Theorem parseCurrency_locale_idempotent :
  parseCurrency (Some (str "1234,56")) = n1234_56
  /\ parseCurrency (Some (str "1.234,56")) = n1234_56
  /\ parseCurrency (Some []) = zero
  /\ parseCurrency None = zero
  /\ (forall s, forallb (fun c => negb (is_digit c)) s = true ->
        parseCurrency (Some s) = zero)
  /\ (forall (value : option jsstring) (t : jsstring),
        decimal_text t = true ->
        parseFloat t = parseCurrency value ->
        parseCurrency (Some (with_comma t)) = parseCurrency value).
Proof.
  split; [reflexivity|]. split; [reflexivity|].
  split; [reflexivity|]. split; [reflexivity|].
  split; [exact parseCurrency_no_digit|].
  intros value t D E. rewrite <- E. apply parseCurrency_with_comma; [exact D|].
  rewrite E. apply parseCurrency_finite.
Qed.

Lemma parseCurrency_locale_idempotent_witness :
  decimal_text (str "1234.56") = true
  /\ parseFloat (str "1234.56") = parseCurrency (Some (str "1.234,56"))
  /\ parseCurrency (Some (with_comma (str "1234.56")))
     = parseCurrency (Some (str "1.234,56")).
Proof.
  split; [reflexivity|]. split; [reflexivity|].
  apply parseCurrency_locale_idempotent; reflexivity.
Defined.

(** C3 (as stated) fails: "1234.56" is decimal text that reads back as the
    result of parsing "1234,56", and parsing it yields 123456. *)
Lemma parseCurrency_decimal_point_not_idempotent :
  decimal_text (str "1234.56") = true
  /\ parseFloat (str "1234.56") = parseCurrency (Some (str "1234,56"))
  /\ parseCurrency (Some (str "1234.56")) = n123456
  /\ parseCurrency (Some (str "1234.56"))
     <> parseCurrency (Some (str "1234,56")).
Proof.
  split; [reflexivity|]. split; [reflexivity|]. split; [reflexivity|].
  vm_compute. discriminate.
Qed.

(* ================================================================= *)
(** ** The normalizer *)

Section Normalizer.

Lemma push_rows_flat_map (rows : list RecebimentoRow) :
  forall registros,
    push_rows rows registros = registros ++ flat_map emitted rows.
Proof.
  induction rows as [|row rows IH]; intros registros; cbn [push_rows flat_map].
  - now rewrite app_nil_r.
  - unfold emitted at 1. destruct (registro_of_row row) as [r|].
    + rewrite IH. now rewrite <- app_assoc.
    + apply IH.
Qed.

Lemma buildLancamentosEntrada_flat_map (values : list RecebimentoRow) :
  buildLancamentosEntrada values = flat_map emitted (skipn 1 values).
Proof.
  unfold buildLancamentosEntrada.
  destruct values as [|header [|row rows]]; try reflexivity.
  cbn [length Nat.leb]. now rewrite push_rows_flat_map.
Qed.

Lemma registro_of_row_included (row : RecebimentoRow) :
  is_some (registro_of_row row) = included row.
Proof.
  unfold registro_of_row, included. destruct row as [cells|]; [|reflexivity].
  rewrite Nat.ltb_antisym. destruct (22 <=? length cells); [|reflexivity].
  cbn [negb andb]. rewrite truthy_parseDate.
  destruct (parseDate (cell cells 4)) as [d|]; [|reflexivity].
  cbn [is_some negb orb andb].
  destruct (is_zero (parseCurrency (cell cells 14))); reflexivity.
Qed.

Lemma In_buildLancamentosEntrada (values : list RecebimentoRow) r :
  In r (buildLancamentosEntrada values) <->
  exists cells, In (Some cells) (skipn 1 values)
                /\ registro_of_row (Some cells) = Some r.
Proof.
  rewrite buildLancamentosEntrada_flat_map, in_flat_map. split.
  - intros (row & Hin & Hr). unfold emitted in Hr.
    destruct (registro_of_row row) as [r'|] eqn:E; [|contradiction].
    destruct Hr as [-> | []]. destruct row as [cells|]; [|discriminate].
    now exists cells.
  - intros (cells & Hin & E). exists (Some cells). split; [exact Hin|].
    unfold emitted. rewrite E. now left.
Qed.

Lemma emitted_filter (rows : list RecebimentoRow) :
  Forall2 (fun row r => registro_of_row row = Some r)
          (filter included rows) (flat_map emitted rows).
Proof.
  induction rows as [|row rows IH]; [constructor|].
  cbn [filter flat_map]. rewrite <- registro_of_row_included.
  unfold emitted at 1.
  destruct (registro_of_row row) as [r|] eqn:E; cbn [is_some app].
  - constructor; assumption.
  - exact IH.
Qed.

End Normalizer.

(** C2. A row after the header row yields a record exactly when it has at
    least 22 cells, its due-date cell parses and its amount cell parses to
    a value other than zero. The output holds one record for each such
    row, in the order of the rows; the other rows leave no trace, and the
    function raises no error (it is total). *)
Theorem normalizer_inclusion_rule :
  forall values : list RecebimentoRow,
    (forall row, included row = true <-> exists r, registro_of_row row = Some r)
    /\ Forall2 (fun row r => registro_of_row row = Some r)
               (filter included (skipn 1 values))
               (buildLancamentosEntrada values)
    /\ length (buildLancamentosEntrada values)
       = length (filter included (skipn 1 values)).
Proof.
  intros values.
  assert (F : Forall2 (fun row r => registro_of_row row = Some r)
                      (filter included (skipn 1 values))
                      (buildLancamentosEntrada values)).
  { rewrite buildLancamentosEntrada_flat_map. apply emitted_filter. }
  split; [|split; [exact F|]].
  - intros row. rewrite <- registro_of_row_included.
    destruct (registro_of_row row) as [r|]; cbn [is_some]; split.
    + intros _. now exists r.
    + reflexivity.
    + discriminate.
    + intros [r H]. discriminate.
  - symmetry. exact (Forall2_length F).
Qed.

(** The scenario of three data rows: a valid row without payment date, a
    row whose amount is "0" and a row of two cells give one record, of
    the first row, with status "A Vencer". *)
Example normalizer_three_rows :
  map (fun r => (data r, status r, datapag r))
      (buildLancamentosEntrada
         [sample_header;
          sample_row "01/02/2024" "" "150,00";
          sample_row "06/03/2024" "" "0";
          Some [str "07/03/2024"; str "x"]])
  = [(str "2024-02-01", str "A Vencer", None)].
Proof. reflexivity. Qed.

(** C6. In every normalized record the status is "Pago" (Paid) exactly
    when the payment-date cell, cell 5 of its row, parses under the date
    rule, and "A Vencer" (Due) otherwise; [datapag], the payment date, is
    the parsed value, null when the cell does not parse. *)
Theorem status_follows_payment_date :
  forall (values : list RecebimentoRow) (r : Registro),
    In r (buildLancamentosEntrada values) ->
    exists cells,
      In (Some cells) (skipn 1 values)
      /\ registro_of_row (Some cells) = Some r
      /\ datapag r = parseDate (cell cells 5)
      /\ (status r = str "Pago" <-> parseDate (cell cells 5) <> None)
      /\ (status r = str "A Vencer" <-> parseDate (cell cells 5) = None)
      /\ (status r = str "Pago" \/ status r = str "A Vencer").
Proof.
  intros values r H. apply In_buildLancamentosEntrada in H.
  destruct H as (cells & Hin & E). exists cells.
  split; [exact Hin|]. split; [exact E|].
  unfold registro_of_row in E.
  destruct (length cells <? 22); [discriminate|].
  destruct (negb _ || _); [discriminate|].
  destruct (parseDate (cell cells 4)); [|discriminate].
  rewrite truthy_parseDate in E.
  remember (parseDate (cell cells 5)) as dataBaixa eqn:B in *. clear B.
  injection E as <-. cbn [datapag status].
  destruct dataBaixa as [d|]; cbn [is_some].
  - split; [reflexivity|]. split; [split; [discriminate | reflexivity]|].
    split; [split; discriminate|]. now left.
  - split; [reflexivity|]. split; [split; [discriminate | congruence]|].
    split; [split; reflexivity|]. now right.
Qed.

Lemma status_follows_payment_date_witness :
  In sample_registro_pago (buildLancamentosEntrada sample_values)
  /\ exists cells,
       In (Some cells) (skipn 1 sample_values)
       /\ registro_of_row (Some cells) = Some sample_registro_pago
       /\ datapag sample_registro_pago = parseDate (cell cells 5)
       /\ (status sample_registro_pago = str "Pago"
           <-> parseDate (cell cells 5) <> None)
       /\ (status sample_registro_pago = str "A Vencer"
           <-> parseDate (cell cells 5) = None)
       /\ (status sample_registro_pago = str "Pago"
           \/ status sample_registro_pago = str "A Vencer").
Proof.
  assert (H : In sample_registro_pago (buildLancamentosEntrada sample_values))
    by (vm_compute; right; left; reflexivity).
  split; [exact H|].
  exact (status_follows_payment_date sample_values sample_registro_pago H).
Defined.

(** C4 (as the code has it). Every record that survives normalization has
    a due date, [data], of the ISO shape YYYY-MM-DD: it is the trimmed
    due-date cell of its own row (the row after the header that the record
    comes from), of the shape DD/MM/YYYY, with its three groups of digits
    reordered. The digits are not compared with the calendar. *)
Theorem due_date_has_iso_shape :
  forall (values : list RecebimentoRow) (r : Registro),
    In r (buildLancamentosEntrada values) ->
    exists cells,
      In (Some cells) (skipn 1 values)
      /\ registro_of_row (Some cells) = Some r
      /\ is_DDMMYYYY (trimmed (cell cells 4)) = true
      /\ data r = iso_of (trimmed (cell cells 4))
      /\ is_ISO_shape (data r) = true.
Proof.
  intros values r H. apply In_buildLancamentosEntrada in H.
  destruct H as (cells & Hin & E). exists cells. split; [exact Hin|].
  split; [exact E|].
  unfold registro_of_row in E.
  destruct (length cells <? 22); [discriminate|].
  destruct (negb _ || _); [discriminate|].
  destruct (parseDate (cell cells 4)) as [d|] eqn:P; [|discriminate].
  injection E as <-. cbn [data].
  destruct (cell cells 4) as [c|]; [|discriminate].
  rewrite parseDate_trimmed in P. cbn [trimmed].
  destruct (is_DDMMYYYY (trim c)) eqn:Sh; [|discriminate].
  injection P as <-.
  split; [reflexivity|]. split; [reflexivity|]. now apply iso_of_shape.
Qed.

Lemma due_date_has_iso_shape_witness :
  In sample_registro_pago (buildLancamentosEntrada sample_values)
  /\ exists cells,
       In (Some cells) (skipn 1 sample_values)
       /\ registro_of_row (Some cells) = Some sample_registro_pago
       /\ is_DDMMYYYY (trimmed (cell cells 4)) = true
       /\ data sample_registro_pago = iso_of (trimmed (cell cells 4))
       /\ is_ISO_shape (data sample_registro_pago) = true.
Proof.
  assert (H : In sample_registro_pago (buildLancamentosEntrada sample_values))
    by (vm_compute; right; left; reflexivity).
  split; [exact H|].
  exact (due_date_has_iso_shape sample_values sample_registro_pago H).
Defined.

(** C4 (as stated) fails: a row dated 31/02/2024 survives normalization
    and its record carries the due date 2024-02-31, which is no day of the
    calendar. *)
Lemma due_date_february_31_emitted :
  map data (buildLancamentosEntrada
              [sample_header; sample_row "31/02/2024" "" "150,00"])
  = [str "2024-02-31"]
  /\ valid_iso_date (str "2024-02-31") = false
  /\ valid_iso_date (str "2024-02-29") = true.
Proof. repeat split. Qed.

(* ================================================================= *)
(** ** Batching *)

Section Chunks.

Context {T : Type}.
Variable items : list T.
Variable size : nat.

Lemma chunk_loop_step fuel i chunks :
  i < length items ->
  chunk_loop (S fuel) items size i chunks =
  chunk_loop fuel items size (i + size)
             (chunks ++ [slice items i (i + size)]).
Proof.
  intros H. cbn [chunk_loop]. apply Nat.ltb_lt in H. now rewrite H.
Qed.

Lemma chunk_loop_done fuel i chunks :
  length items <= i ->
  chunk_loop (S fuel) items size i chunks = Some chunks.
Proof.
  intros H. cbn [chunk_loop]. apply Nat.ltb_ge in H. now rewrite H.
Qed.

Lemma slice_skipn i :
  slice items i (i + size) ++ skipn (i + size) items = skipn i items.
Proof.
  unfold slice. replace (i + size - i) with size by lia.
  rewrite (Nat.add_comm i size), <- skipn_skipn. apply firstn_skipn.
Qed.

Hypothesis size_positive : 0 < size.

(** With a positive size the loop ends before its fuel does, and the
    chunks it adds are the rest of the items, cut in order. *)
Lemma chunk_loop_ends fuel :
  forall i chunks,
    length items <= i + fuel * size ->
    exists rest,
      chunk_loop (S fuel) items size i chunks = Some (chunks ++ rest)
      /\ concat rest = skipn i items
      /\ Forall (fun b => length b <= size) rest.
Proof.
  induction fuel as [|fuel IH]; intros i chunks F;
    destruct (Nat.lt_ge_cases i (length items)) as [L|G];
    try (cbn [Nat.mul] in F; lia).
  - rewrite (chunk_loop_done _ _ G). exists []. repeat split.
    + now rewrite app_nil_r.
    + symmetry. now apply skipn_all2.
    + constructor.
  - rewrite (chunk_loop_step _ _ L).
    destruct (IH (i + size) (chunks ++ [slice items i (i + size)]))
      as (rest & E & C & B); [cbn [Nat.mul] in F; lia|].
    exists (slice items i (i + size) :: rest). repeat split.
    + rewrite E, <- app_assoc. reflexivity.
    + cbn [concat]. rewrite C. apply slice_skipn.
    + constructor; [|exact B]. unfold slice. rewrite length_firstn. lia.
  - rewrite (chunk_loop_done _ _ G). exists []. repeat split.
    + now rewrite app_nil_r.
    + symmetry. now apply skipn_all2.
    + constructor.
Qed.

Lemma chunkArray_ends :
  exists batches,
    chunkArray items size = Some batches
    /\ concat batches = items
    /\ Forall (fun b => length b <= size) batches.
Proof.
  unfold chunkArray. destruct (length items <=? size) eqn:E.
  - exists [items]. apply Nat.leb_le in E. repeat split.
    + cbn [concat]. apply app_nil_r.
    + constructor; [exact E | constructor].
  - destruct (chunk_loop_ends (length items) 0 []) as (rest & R & C & B).
    + nia.
    + exists rest. repeat split; assumption.
Qed.

End Chunks.

(** 1,200 items in chunks of 500: three chunks, the items 0 to 499, 500 to
    999 and 1000 to 1199. *)
Lemma chunkArray_1200 {T} (items : list T) :
  length items = 1200 ->
  chunkArray items 500
  = Some [slice items 0 500; slice items 500 1000; slice items 1000 1500].
Proof.
  intros L. unfold chunkArray. rewrite L.
  replace (1200 <=? 500) with false by reflexivity.
  rewrite chunk_loop_step by lia.
  rewrite chunk_loop_step by lia.
  rewrite chunk_loop_step by lia.
  rewrite chunk_loop_done by lia.
  reflexivity.
Qed.

Lemma slices_1200 {T} (items : list T) :
  length items = 1200 ->
  length (slice items 0 500) = 500
  /\ length (slice items 500 1000) = 500
  /\ length (slice items 1000 1500) = 200
  /\ slice items 0 500 ++ slice items 500 1000 ++ slice items 1000 1500
     = items.
Proof.
  intros L. unfold slice.
  repeat split; try (rewrite length_firstn, length_skipn; lia).
  replace (500 - 0) with 500 by lia.
  replace (1000 - 500) with 500 by lia.
  replace (1500 - 1000) with 500 by lia.
  change (skipn 0 items) with items.
  rewrite (firstn_all2 (n := 500) (skipn 1000 items))
    by (rewrite length_skipn; lia).
  replace (skipn 1000 items) with (skipn 500 (skipn 500 items))
    by (rewrite skipn_skipn; f_equal; lia).
  rewrite (firstn_skipn 500 (skipn 500 items)). apply firstn_skipn.
Qed.

(* ================================================================= *)
(** ** The handler *)

Lemma registro_of_row_tipo (row : RecebimentoRow) (r : Registro) :
  registro_of_row row = Some r -> tipo r = str "Entrada".
Proof.
  unfold registro_of_row. destruct row as [cells|]; [|discriminate].
  destruct (length cells <? 22); [discriminate|].
  destruct (negb _ || _); [discriminate|].
  destruct (parseDate (cell cells 4)); [|discriminate].
  intros H; injection H as <-. reflexivity.
Qed.

Lemma buildLancamentosEntrada_tipo (values : list RecebimentoRow) :
  Forall (fun r => tipo r = str "Entrada") (buildLancamentosEntrada values).
Proof.
  apply Forall_forall. intros r H. apply In_buildLancamentosEntrada in H.
  destruct H as (cells & _ & E). exact (registro_of_row_tipo _ E).
Qed.

Lemma filter_idempotent {A} (f : A -> bool) (l : list A) :
  filter f (filter f l) = filter f l.
Proof.
  induction l as [|x l IH]; [reflexivity|]. cbn [filter].
  destruct (f x) eqn:E; cbn [filter]; [rewrite E, IH|]; auto.
Qed.

Lemma filter_not_entrada_lote (lote : list Registro) :
  Forall (fun r => tipo r = str "Entrada") lote ->
  filter not_entrada lote = [].
Proof.
  induction 1 as [|r lote Hr _ IH]; [reflexivity|]. cbn [filter].
  unfold not_entrada at 1. rewrite Hr.
  replace (jsstring_eqb (str "Entrada") (str "Entrada")) with true
    by reflexivity.
  exact IH.
Qed.

Lemma frames_refl (w : World) : frames w w.
Proof. split; [reflexivity|]. exists []. now rewrite app_nil_r. Qed.

Lemma frames_trans (w1 w2 w3 : World) :
  frames w1 w2 -> frames w2 w3 -> frames w1 w3.
Proof.
  intros [T1 (a1 & C1 & F1)] [T2 (a2 & C2 & F2)]. split; [congruence|].
  exists (a1 ++ a2). split.
  - now rewrite C2, C1, app_assoc.
  - apply Forall_app. now split.
Qed.

Lemma store_insert_frames (lote : list Registro) (w : World) :
  Forall (fun r => tipo r = str "Entrada") lote ->
  frames w (snd (store_insert lote w)).
Proof.
  intros H. unfold store_insert.
  destruct (next_outcome w) as [[message|] rest]; cbn [snd]; split;
    cbn [table calls].
  - reflexivity.
  - exists [CallInsert lote]. split; [reflexivity|]. now repeat constructor.
  - rewrite filter_app, (filter_not_entrada_lote H). apply app_nil_r.
  - exists [CallInsert lote]. split; [reflexivity|]. now repeat constructor.
Qed.

Lemma store_delete_frames (w : World) :
  frames w (snd (store_delete_tipo_eq (str "Entrada") w)).
Proof.
  unfold store_delete_tipo_eq.
  destruct (next_outcome w) as [[message|] rest]; cbn [snd]; split;
    cbn [table calls].
  - reflexivity.
  - eexists. split; [reflexivity|]. now repeat constructor.
  - apply (filter_idempotent not_entrada).
  - eexists. split; [reflexivity|]. now repeat constructor.
Qed.

Lemma insert_lotes_frames (batches : list (list Registro)) :
  Forall (Forall (fun r => tipo r = str "Entrada")) batches ->
  forall w, exists c w',
    insert_lotes batches w = Some (c, w') /\ frames w w'.
Proof.
  induction 1 as [|lote batches Hl _ IH]; intros w.
  - exists (Normal tt), w. split; [reflexivity | apply frames_refl].
  - cbn [insert_lotes]. unfold bind at 1, call.
    pose proof (store_insert_frames w Hl) as F.
    destruct (store_insert lote w) as [[message|] w1]; cbn [snd] in F.
    + eexists _, w1. split; [reflexivity | exact F].
    + destruct (IH w1) as (c & w' & E & F'). exists c, w'.
      split; [exact E | exact (frames_trans F F')].
Qed.

Lemma batches_tipo (registros : list Registro) (batches : list (list Registro)) :
  Forall (fun r => tipo r = str "Entrada") registros ->
  concat batches = registros ->
  Forall (Forall (fun r => tipo r = str "Entrada")) batches.
Proof.
  intros H <-. induction batches as [|b batches IH]; [constructor|].
  cbn [concat] in H. apply Forall_app in H. destruct H as [Hb Hr].
  constructor; [exact Hb | exact (IH Hr)].
Qed.

Lemma import_entradas_frames (reply : SheetsReply) (w : World) :
  exists c w', import_entradas reply w = Some (c, w') /\ frames w w'.
Proof.
  unfold import_entradas.
  destruct reply as [message | code statusText details | | values];
    try (eexists _, w; split; [reflexivity | apply frames_refl]).
  unfold fetchSheetData. unfold bind at 1. unfold ret at 1.
  unfold bind at 1, call.
  pose proof (store_delete_frames w) as F.
  destruct (store_delete_tipo_eq (str "Entrada") w) as [[message|] w1];
    cbn [snd] in F.
  - eexists _, w1. split; [reflexivity | exact F].
  - unfold bind at 1.
    destruct (0 <? length (buildLancamentosEntrada values)).
    + destruct (chunkArray_ends (buildLancamentosEntrada values)
                  (size := 500)) as (batches & E & C & _); [lia|].
      unfold bind at 1, ended. rewrite E.
      destruct (insert_lotes_frames
                  (@batches_tipo _ _ (buildLancamentosEntrada_tipo values) C)
                  w1)
        as (c & w2 & I & F').
      rewrite I. destruct c as [[]|e].
      * eexists _, w2. split; [reflexivity | exact (frames_trans F F')].
      * eexists _, w2. split; [reflexivity | exact (frames_trans F F')].
    + eexists _, w1. split; [reflexivity | exact F].
Qed.

Lemma serve_post (reply : SheetsReply) (w : World) :
  serve (str "POST") reply w =
  match import_entradas reply w with
  | None => None
  | Some (Normal response, w') => Some (response, w')
  | Some (Throw e, w') => Some (failure_response e, w')
  end.
Proof. reflexivity. Qed.

Lemma next_outcome_hd (w : World) :
  next_outcome w = (hd None (pending w), tl (pending w)).
Proof. unfold next_outcome. destruct (pending w); reflexivity. Qed.

(** C10. Whatever the request, the reply of the sheet and the outcomes of
    the store, a run ends and leaves the rows whose [tipo] is not
    "Entrada" as they were: the only calls it makes are the delete
    filtered on [tipo] = "Entrada" and inserts of records whose [tipo] is
    "Entrada", which is the [tipo] of every record the normalizer
    emits. *)
Theorem run_frames_other_categories :
  forall (method : jsstring) (reply : SheetsReply) (w : World),
    (exists response w',
        serve method reply w = Some (response, w')
        /\ filter not_entrada (table w') = filter not_entrada (table w)
        /\ exists added,
             calls w' = calls w ++ added /\ Forall entrada_call added)
    /\ (forall values,
          Forall (fun r => tipo r = str "Entrada")
                 (buildLancamentosEntrada values)).
Proof.
  intros method reply w. split; [|exact buildLancamentosEntrada_tipo].
  unfold serve.
  destruct (jsstring_eqb method (str "OPTIONS")).
  { eexists _, w. split; [reflexivity | apply frames_refl]. }
  destruct (negb (jsstring_eqb method (str "POST"))).
  { eexists _, w. split; [reflexivity | apply frames_refl]. }
  destruct (import_entradas_frames reply w) as (c & w' & E & F).
  rewrite E. destruct c as [response | e]; eexists _, w';
    (split; [reflexivity | exact F]).
Qed.

(** C9. When the sheet was read and the delete of the "Entrada" rows
    fails, the run answers with the failure response (status 500,
    [success] false, the message of the failed delete), the delete is the
    only call made on the store, no insert among them, and the rows of the
    table are those from before the run. *)
Theorem delete_failure_aborts :
  forall (values : list RecebimentoRow) (w : World)
         (message : jsstring) (rest : list (option jsstring)),
    pending w = Some message :: rest ->
    exists response w',
      serve (str "POST") (ReplyValues values) w = Some (response, w')
      /\ resp_status response = 500
      /\ resp_body response
         = JsonBody (mkPayload false
                       (str "Falha ao apagar lan" ++ [231%N]
                          ++ str "amentos de entrada: " ++ message)
                       None)
      /\ table w' = table w
      /\ calls w' = calls w ++ [delete_entradas].
Proof.
  intros values w message rest P. rewrite serve_post.
  unfold import_entradas, fetchSheetData. unfold bind at 1. unfold ret at 1.
  unfold bind at 1, call, store_delete_tipo_eq.
  rewrite next_outcome_hd, P. cbn [hd tl].
  eexists _, _. split; [reflexivity|].
  split; [reflexivity|]. split; [reflexivity|]. split; reflexivity.
Qed.

Lemma delete_failure_aborts_witness :
  let w := mkWorld [sample_registro_pago] [Some (str "timeout")] [] in
  pending w = [Some (str "timeout")]
  /\ exists response w',
       serve (str "POST") (ReplyValues sample_values) w = Some (response, w')
       /\ resp_status response = 500
       /\ resp_body response
          = JsonBody (mkPayload false
                        (str "Falha ao apagar lan" ++ [231%N]
                           ++ str "amentos de entrada: " ++ str "timeout")
                        None)
       /\ table w' = table w
       /\ calls w' = calls w ++ [delete_entradas].
Proof.
  intros w. split; [reflexivity|].
  apply (@delete_failure_aborts sample_values w (str "timeout") []).
  reflexivity.
Defined.

(** C5. When no record comes out of the normalizer the run still makes
    the delete filtered on [tipo] = "Entrada" and makes no other call on
    the store, so no insert; the delete succeeding, the response has
    status 200 and a JSON body with the payload
    [{ success: true, message, total_importado: 0 }], of the documented
    shape (the count is the field [total_importado] of the source). *)
Theorem empty_import_still_deletes :
  forall (values : list RecebimentoRow) (w : World),
    buildLancamentosEntrada values = [] ->
    exists response w',
      serve (str "POST") (ReplyValues values) w = Some (response, w')
      /\ calls w' = calls w ++ [delete_entradas]
      /\ (hd None (pending w) = None ->
          resp_status response = 200
          /\ resp_body response
             = JsonBody (mkPayload true
                           (str "Importa" ++ [231%N; 227%N] ++ str "o conclu"
                              ++ [237%N] ++ str "da com 0 lan" ++ [231%N]
                              ++ str "amentos de entrada.")
                           (Some 0))
          /\ table w' = filter not_entrada (table w)).
Proof.
  intros values w E. rewrite serve_post.
  unfold import_entradas, fetchSheetData. unfold bind at 1. unfold ret at 1.
  unfold bind at 1, call, store_delete_tipo_eq.
  rewrite next_outcome_hd, E.
  destruct (hd None (pending w)) as [message|].
  - eexists _, _. split; [reflexivity|]. split; [reflexivity|]. discriminate.
  - eexists _, _. split; [reflexivity|]. split; [reflexivity|].
    intros _. split; [reflexivity|]. split; reflexivity.
Qed.

Lemma empty_import_still_deletes_witness :
  let values := [sample_header; sample_row "06/03/2024" "" "0,00"] in
  let w := mkWorld [sample_registro_pago] [] [] in
  buildLancamentosEntrada values = []
  /\ hd None (pending w) = None
  /\ exists response w',
       serve (str "POST") (ReplyValues values) w = Some (response, w')
       /\ calls w' = calls w ++ [delete_entradas]
       /\ resp_status response = 200
       /\ resp_body response
          = JsonBody (mkPayload true
                        (str "Importa" ++ [231%N; 227%N] ++ str "o conclu"
                           ++ [237%N] ++ str "da com 0 lan" ++ [231%N]
                           ++ str "amentos de entrada.")
                        (Some 0))
       /\ table w' = filter not_entrada (table w).
Proof.
  intros values w. split; [reflexivity|]. split; [reflexivity|].
  destruct (@empty_import_still_deletes values w eq_refl)
    as (response & w' & S & C & R).
  exists response, w'. split; [exact S|]. split; [exact C|].
  exact (R eq_refl).
Defined.

(** The [try] block once the sheet has been read. *)
Lemma import_entradas_values (values : list RecebimentoRow) (w : World) :
  import_entradas (ReplyValues values) w =
  match store_delete_tipo_eq (str "Entrada") w with
  | (Some m, w1) => Some (Throw (ErrorObject (delete_failure m)), w1)
  | (None, w1) =>
      let n := length (buildLancamentosEntrada values) in
      let done := jsonResponse (mkPayload true (import_message n) (Some n))
                               200 in
      if 0 <? n then
        match chunkArray (buildLancamentosEntrada values) 500 with
        | Some batches =>
            match insert_lotes batches w1 with
            | Some (Normal _, w2) => Some (Normal done, w2)
            | Some (Throw e, w2) => Some (Throw e, w2)
            | None => None
            end
        | None => None
        end
      else Some (Normal done, w1)
  end.
Proof.
  unfold import_entradas, fetchSheetData.
  unfold bind at 1. unfold ret at 1. unfold bind at 1, call.
  destruct (store_delete_tipo_eq (str "Entrada") w) as [[m|] w1];
    [reflexivity|].
  cbv zeta. unfold bind at 1.
  destruct (0 <? length (buildLancamentosEntrada values)); [|reflexivity].
  unfold bind at 1, ended.
  destruct (chunkArray (buildLancamentosEntrada values) 500) as [batches|];
    [|reflexivity].
  destruct (insert_lotes batches w1) as [[[u|e] w2]|]; reflexivity.
Qed.

Lemma store_delete_hd (value : jsstring) (w : World) :
  store_delete_tipo_eq value w =
  let log := calls w ++ [CallDeleteEq (str "tipo") value] in
  match hd None (pending w) with
  | Some m => (Some m, mkWorld (table w) (tl (pending w)) log)
  | None =>
      (None,
       mkWorld (filter (fun r => negb (jsstring_eqb (tipo r) value)) (table w))
               (tl (pending w)) log)
  end.
Proof.
  unfold store_delete_tipo_eq. rewrite next_outcome_hd. reflexivity.
Qed.

Lemma insert_lotes_cons (lote : list Registro) (rest : list (list Registro))
  (w : World) :
  insert_lotes (lote :: rest) w =
  let log := calls w ++ [CallInsert lote] in
  match hd None (pending w) with
  | Some m =>
      Some (Throw (ErrorObject (insert_failure m)),
            mkWorld (table w) (tl (pending w)) log)
  | None => insert_lotes rest (mkWorld (table w ++ lote) (tl (pending w)) log)
  end.
Proof.
  cbn [insert_lotes]. unfold bind, call, store_insert.
  rewrite next_outcome_hd. destruct (hd None (pending w)); reflexivity.
Qed.

(** C1. With 1,200 normalized records the insert step cuts them into
    three batches, records 0 to 499, 500 to 999 and 1000 to 1199 (sizes
    500, 500 and 200, together the records in their order). When the
    delete and the first insert succeed and the second insert fails, the
    calls made are the delete and the first two inserts, the third batch
    is not sent, the response has status 500 and the JSON payload
    [{ success: false, message }] with the message of the failed insert,
    and the table holds the first batch after the rows of the other
    categories. When no call fails the three batches are
    inserted in order and the response counts 1,200 records. *)
Theorem batch_insert_1200 :
  forall (values : list RecebimentoRow) (w : World)
         (message : jsstring) (rest : list (option jsstring)),
    length (buildLancamentosEntrada values) = 1200 ->
    pending w = None :: None :: Some message :: rest ->
    let registros := buildLancamentosEntrada values in
    let b1 := slice registros 0 500 in
    let b2 := slice registros 500 1000 in
    let b3 := slice registros 1000 1500 in
    chunkArray registros 500 = Some [b1; b2; b3]
    /\ length b1 = 500 /\ length b2 = 500 /\ length b3 = 200
    /\ b1 ++ b2 ++ b3 = registros
    /\ (exists response w',
          serve (str "POST") (ReplyValues values) w = Some (response, w')
          /\ resp_status response = 500
          /\ resp_body response
             = JsonBody (mkPayload false
                           (str "Falha ao inserir lan" ++ [231%N]
                              ++ str "amentos: " ++ message)
                           None)
          /\ calls w' = calls w ++ [delete_entradas; CallInsert b1;
                                    CallInsert b2]
          /\ table w' = filter not_entrada (table w) ++ b1)
    /\ (forall w0, pending w0 = [] ->
          exists response w1,
            serve (str "POST") (ReplyValues values) w0 = Some (response, w1)
            /\ resp_status response = 200
            /\ resp_body response
               = JsonBody (mkPayload true
                             (str "Importa" ++ [231%N; 227%N]
                                ++ str "o conclu" ++ [237%N]
                                ++ str "da com 1200 lan" ++ [231%N]
                                ++ str "amentos de entrada.")
                             (Some 1200))
            /\ calls w1 = calls w0 ++ [delete_entradas; CallInsert b1;
                                       CallInsert b2; CallInsert b3]
            /\ table w1 = ((filter not_entrada (table w0) ++ b1) ++ b2) ++ b3).
Proof.
  intros values w message rest L P. cbv zeta.
  pose proof (chunkArray_1200 _ L) as C.
  destruct (slices_1200 _ L) as (L1 & L2 & L3 & A).
  split; [exact C|]. split; [exact L1|]. split; [exact L2|].
  split; [exact L3|]. split; [exact A|].
  split.
  - rewrite serve_post, import_entradas_values, store_delete_hd, P.
    cbv zeta. cbn [hd tl]. rewrite L, C.
    change (0 <? 1200) with true. cbv iota.
    rewrite insert_lotes_cons. cbv zeta. cbn [pending hd tl table calls].
    rewrite insert_lotes_cons. cbv zeta. cbn [pending hd tl table calls].
    eexists _, _. split; [reflexivity|]. cbn [table calls].
    split; [reflexivity|]. split; [reflexivity|].
    split; [now rewrite <- !app_assoc | reflexivity].
  - intros w0 P0.
    rewrite serve_post, import_entradas_values, store_delete_hd, P0.
    cbv zeta. cbn [hd tl]. rewrite L, C.
    change (0 <? 1200) with true. cbv iota.
    rewrite insert_lotes_cons. cbv zeta. cbn [pending hd tl table calls].
    rewrite insert_lotes_cons. cbv zeta. cbn [pending hd tl table calls].
    rewrite insert_lotes_cons. cbv zeta. cbn [pending hd tl table calls].
    cbn [insert_lotes ret].
    eexists _, _. split; [reflexivity|]. cbn [table calls].
    split; [reflexivity|]. split; [vm_compute; reflexivity|].
    split; [now rewrite <- !app_assoc | reflexivity].
Qed.

Lemma batch_insert_1200_witness :
  let values := sample_values_1200 in
  let registros := buildLancamentosEntrada values in
  let w := mkWorld [sample_registro_pago]
                   [None; None; Some (str "timeout")] [] in
  length registros = 1200
  /\ pending w = [None; None; Some (str "timeout")]
  /\ chunkArray registros 500
     = Some [slice registros 0 500; slice registros 500 1000;
             slice registros 1000 1500]
  /\ exists response w',
       serve (str "POST") (ReplyValues values) w = Some (response, w')
       /\ resp_status response = 500
       /\ resp_body response
          = JsonBody (mkPayload false
                        (str "Falha ao inserir lan" ++ [231%N]
                           ++ str "amentos: " ++ str "timeout")
                        None)
       /\ calls w' = calls w ++ [delete_entradas;
                                 CallInsert (slice registros 0 500);
                                 CallInsert (slice registros 500 1000)]
       /\ table w' = filter not_entrada (table w) ++ slice registros 0 500.
Proof.
  intros values registros w.
  assert (L : length (buildLancamentosEntrada values) = 1200)
    by (vm_compute; reflexivity).
  assert (P : pending w = None :: None :: Some (str "timeout") :: [])
    by reflexivity.
  destruct (@batch_insert_1200 values w (str "timeout") [] L P)
    as (C & _ & _ & _ & _ & R & _).
  split; [exact L|]. split; [exact P|]. split; [exact C | exact R].
Defined.

(* ================================================================= *)
(** ** More on batching *)

Section MoreChunks.

Context {T : Type}.
Variable items : list T.
Variable size : nat.
Hypothesis size_positive : 0 < size.

Lemma length_slice i :
  length (slice items i (i + size)) = Nat.min size (length items - i).
Proof.
  unfold slice. rewrite length_firstn, length_skipn. f_equal. lia.
Qed.

(** From a position inside the items the loop adds full chunks and then a
    last, non-empty one. *)
Lemma chunk_loop_full fuel :
  forall i chunks,
    length items <= i + fuel * size ->
    i < length items ->
    exists init lst,
      chunk_loop (S fuel) items size i chunks = Some (chunks ++ init ++ [lst])
      /\ Forall (fun b => length b = size) init
      /\ 0 < length lst <= size
      /\ length init = (length items - i - 1) / size.
Proof.
  induction fuel as [|fuel IH]; intros i chunks F L;
    [cbn [Nat.mul] in F; lia|].
  rewrite (chunk_loop_step _ _ _ _ L).
  destruct (Nat.lt_ge_cases (i + size) (length items)) as [L'|G].
  - destruct (IH (i + size) (chunks ++ [slice items i (i + size)]))
      as (init & lst & E & Fi & Fl & N); [cbn [Nat.mul] in F; lia | exact L'|].
    exists (slice items i (i + size) :: init), lst.
    split; [rewrite E, <- app_assoc; reflexivity|].
    split; [constructor; [rewrite length_slice; lia | exact Fi]|].
    split; [exact Fl|].
    cbn [length]. rewrite N.
    replace (length items - i - 1)
      with ((length items - (i + size) - 1) + 1 * size) by lia.
    rewrite Nat.div_add by lia. lia.
  - rewrite (chunk_loop_done _ _ _ _ G).
    exists [], (slice items i (i + size)).
    split; [reflexivity|]. split; [constructor|].
    split; [rewrite length_slice; lia|].
    cbn [length]. symmetry. apply Nat.div_small. lia.
Qed.

End MoreChunks.



Lemma chunkArray_shape :
  forall (T : Type) (items : list T) (size : nat),
    0 < size ->
    items <> [] ->
    exists init lst,
      chunkArray items size = Some (init ++ [lst])
      /\ Forall (fun b => length b = size) init
      /\ 0 < length lst <= size
      /\ length (init ++ [lst]) = (length items + size - 1) / size.
Proof.
  intros T items size S N.
  assert (P : 0 < length items) by (destruct items; [congruence | cbn; lia]).
  unfold chunkArray. destruct (length items <=? size) eqn:E.
  - apply Nat.leb_le in E. exists [], items.
    split; [reflexivity|]. split; [constructor|]. split; [lia|].
    cbn [app length].
    replace (length items + size - 1) with ((length items - 1) + 1 * size)
      by lia.
    rewrite Nat.div_add by lia. rewrite Nat.div_small; lia.
  - apply Nat.leb_gt in E.
    destruct (@chunk_loop_full T items size S (length items) 0 [])
      as (init & lst & R & Fi & Fl & C); [nia | lia|].
    exists init, lst. split; [exact R|]. split; [exact Fi|].
    split; [exact Fl|].
    rewrite length_app. cbn [length]. rewrite C.
    replace (length items + size - 1)
      with ((length items - 0 - 1) + 1 * size) by lia.
    rewrite Nat.div_add by lia. lia.
Qed.



(** X3. With size 0 and at least one item the loop of [chunkArray] never
    ends: whatever the number of turns allowed, it is still running, from
    any position inside the items. *)
Theorem chunkArray_size_zero_runs_forever :
  forall (T : Type) (items : list T) (fuel i : nat) (chunks : list (list T)),
    i < length items ->
    chunk_loop fuel items 0 i chunks = None
    /\ chunkArray items 0 = None.
Proof.
  intros T items fuel i chunks L.
  assert (R : forall fuel chunks, chunk_loop fuel items 0 i chunks = None).
  { clear fuel chunks. induction fuel as [|fuel IH]; intros chunks;
      [reflexivity|].
    rewrite chunk_loop_step by exact L. rewrite Nat.add_0_r. apply IH. }
  split; [apply R|].
  unfold chunkArray. destruct (length items <=? 0) eqn:E.
  - apply Nat.leb_le in E. lia.
  - clear R. generalize (@nil (list T)). generalize (S (length items)).
    assert (P : 0 < length items) by lia. clear L E i.
    induction n as [|n IH]; intros acc; [reflexivity|].
    rewrite chunk_loop_step by exact P. apply IH.
Qed.

Lemma chunkArray_size_zero_runs_forever_witness :
  0 < length [7; 8]
  /\ chunk_loop 1000 [7; 8] 0 0 [] = None
  /\ chunkArray [7; 8] 0 = None.
Proof.
  split; [cbn; lia|].
  apply (@chunkArray_size_zero_runs_forever nat [7; 8] 1000 0 []). cbn; lia.
Defined.

(* ================================================================= *)
(** ** White space *)

Lemma trimStart_blank (ws s : jsstring) :
  blank ws = true -> trimStart (ws ++ s) = trimStart s.
Proof.
  unfold blank. induction ws as [|c ws IH]; [reflexivity|].
  cbn [forallb app trimStart]. intros H.
  apply andb_true_iff in H. destruct H as [-> Hw]. now apply IH.
Qed.

(** [trimStart] removes a blank prefix and nothing else. *)
Lemma trimStart_split (s : jsstring) :
  exists ws, blank ws = true /\ s = ws ++ trimStart s.
Proof.
  induction s as [|c s (ws & B & E)]; [exists []; split; reflexivity|].
  cbn [trimStart]. destruct (is_space c) eqn:S.
  - exists (c :: ws). split; [cbn; now rewrite S | cbn; now rewrite <- E].
  - exists []. split; reflexivity.
Qed.

Lemma trimStart_head (s : jsstring) (c : N) (t : jsstring) :
  trimStart s = c :: t -> is_space c = false.
Proof.
  induction s as [|d s IH]; [discriminate|]. cbn [trimStart].
  destruct (is_space d) eqn:S; [exact IH|].
  intros H. injection H as <- _. exact S.
Qed.

Lemma trimStart_fixed (c : N) (t : jsstring) :
  is_space c = false -> trimStart (c :: t) = c :: t.
Proof. intros S. cbn [trimStart]. now rewrite S. Qed.

Lemma trimStart_app (s t : jsstring) :
  trimStart s <> [] -> trimStart (s ++ t) = trimStart s ++ t.
Proof.
  induction s as [|c s IH]; [intros H; exfalso; now apply H|].
  cbn [trimStart app].
  destruct (is_space c); [exact IH | reflexivity].
Qed.

Lemma blank_rev (ws : jsstring) : blank (rev ws) = blank ws.
Proof.
  unfold blank. apply eq_true_iff_eq. rewrite !forallb_forall.
  split; intros H c Hc; apply H; [apply -> in_rev in Hc | apply <- in_rev in Hc];
    assumption.
Qed.

Lemma blank_trimStart (ws : jsstring) : blank ws = true -> trimStart ws = [].
Proof. intros B. rewrite <- (app_nil_r ws). now rewrite trimStart_blank. Qed.

Lemma trimEnd_blank (s ws : jsstring) :
  blank ws = true -> trimEnd (s ++ ws) = trimEnd s.
Proof.
  intros B. unfold trimEnd. rewrite rev_app_distr, trimStart_blank;
    [reflexivity | now rewrite blank_rev].
Qed.

(** [trimEnd] removes a blank suffix and nothing else. *)
Lemma trimEnd_split (s : jsstring) :
  exists ws, blank ws = true /\ s = trimEnd s ++ ws.
Proof.
  destruct (trimStart_split (rev s)) as (ws & B & E).
  exists (rev ws). split; [now rewrite blank_rev|].
  unfold trimEnd. rewrite <- rev_app_distr, <- E. symmetry. apply rev_involutive.
Qed.

Lemma trimEnd_last (s : jsstring) (c : N) (t : jsstring) :
  trimEnd s = c :: t -> is_space (last (c :: t) c) = false.
Proof.
  unfold trimEnd. intros H.
  destruct (trimStart (rev s)) as [|d u] eqn:E; [discriminate|].
  apply trimStart_head in E. rewrite <- H. cbn [rev].
  now rewrite last_last.
Qed.

(** The result of [trim] has no white space at either end. *)
Lemma trim_no_outer_space (s : jsstring) : no_outer_space (trim s) = true.
Proof.
  unfold no_outer_space, trim.
  destruct (trimEnd (trimStart s)) as [|c t] eqn:E; [reflexivity|].
  rewrite (@trimEnd_last _ _ _ E). cbn [negb andb]. rewrite andb_true_r.
  destruct (trimEnd_split (trimStart s)) as (ws & _ & S). rewrite E in S.
  cbn [app] in S. apply trimStart_head in S. now rewrite S.
Qed.

Lemma trim_fixed (s : jsstring) : no_outer_space s = true -> trim s = s.
Proof.
  destruct s as [|c t]; [reflexivity|]. cbn [no_outer_space].
  intros H. apply andb_true_iff in H. destruct H as [Hc Hl].
  apply negb_true_iff in Hc, Hl.
  unfold trim. rewrite trimStart_fixed by exact Hc. unfold trimEnd.
  destruct (rev (c :: t)) as [|d u] eqn:R.
  - apply (f_equal (@length N)) in R. rewrite length_rev in R. discriminate.
  - assert (D : d = last (c :: t) c).
    { rewrite <- (rev_involutive (c :: t)), R. cbn [rev]. now rewrite last_last. }
    rewrite trimStart_fixed by (rewrite D; exact Hl).
    rewrite <- R. apply rev_involutive.
Qed.

(** White space around a text does not reach its trimmed form. *)
Lemma trim_blank_around (ws1 s ws2 : jsstring) :
  blank ws1 = true -> blank ws2 = true -> trim (ws1 ++ s ++ ws2) = trim s.
Proof.
  intros B1 B2. unfold trim. rewrite trimStart_blank by exact B1.
  destruct (trimStart s) as [|c t] eqn:E.
  - destruct (trimStart_split s) as (ws & B & S). rewrite E, app_nil_r in S.
    subst s. rewrite trimStart_blank by exact B.
    now rewrite (blank_trimStart _ B2).
  - rewrite trimStart_app by (rewrite E; discriminate).
    rewrite E. now apply trimEnd_blank.
Qed.

(* ================================================================= *)
(** ** More on the date rule *)

Lemma digit_not_space (c : N) : is_digit c = true -> is_space c = false.
Proof.
  unfold is_digit, is_space. intros H.
  apply andb_true_iff in H. destruct H as [L U].
  apply N.leb_le in L, U.
  repeat match goal with
         | |- context [(?a =? ?b)%N] =>
             destruct (N.eqb_spec a b); [lia|]
         | |- context [(?a <=? ?b)%N] =>
             destruct (N.leb_spec a b); try lia
         end.
Qed.

Lemma ddmmyyyy_of_iso_of (t : jsstring) :
  is_DDMMYYYY t = true -> ddmmyyyy_of (iso_of t) = t.
Proof.
  unfold is_DDMMYYYY.
  do 11 (destruct t as [|? t]; try discriminate).
  cbn [length Nat.eqb firstn skipn nth app andb forallb].
  intros H. apply andb_true_iff in H. destruct H as [H S2].
  apply andb_true_iff in H. destruct H as [_ S1].
  apply N.eqb_eq in S1, S2. subst. reflexivity.
Qed.

Lemma iso_shape_not_ddmmyyyy (t : jsstring) :
  is_ISO_shape t = true -> is_DDMMYYYY t = false.
Proof.
  unfold is_ISO_shape, is_DDMMYYYY.
  do 11 (destruct t as [|? t]; try discriminate).
  cbn [length Nat.eqb firstn skipn nth app andb forallb].
  intros H.
  match goal with |- (_ && (?c =? 47)%N && _ = false) =>
    destruct (N.eqb_spec c 47) as [->|]; [|now rewrite andb_false_r] end.
  repeat match type of H with context [is_digit ?c] =>
    destruct (is_digit c) eqn:?; cbn [andb] in H; try discriminate end.
Qed.

Lemma iso_shape_no_outer_space (t : jsstring) :
  is_ISO_shape t = true -> no_outer_space t = true.
Proof.
  unfold is_ISO_shape.
  do 11 (destruct t as [|? t]; try discriminate).
  cbn [length Nat.eqb firstn skipn nth app andb forallb no_outer_space last].
  intros H.
  repeat match type of H with context [is_digit ?c] =>
    let D := fresh "D" in
    destruct (is_digit c) eqn:D; cbn [andb] in H; try discriminate;
    apply digit_not_space in D end.
  repeat match goal with D : is_space _ = false |- _ => rewrite D; clear D end.
  reflexivity.
Qed.

(** X4. White space before and after the text of a cell never changes
    what the date rule answers. *)
Theorem parseDate_ignores_outer_space :
  forall ws1 s ws2 : jsstring,
    blank ws1 = true -> blank ws2 = true ->
    parseDate (Some (ws1 ++ s ++ ws2)) = parseDate (Some s).
Proof.
  intros ws1 s ws2 B1 B2.
  now rewrite !parseDate_trimmed, trim_blank_around.
Qed.

Lemma parseDate_ignores_outer_space_witness :
  blank (str "  ") = true /\ blank [9%N; 160%N] = true
  /\ parseDate (Some (str "  " ++ str "05/03/2024" ++ [9%N; 160%N]))
     = parseDate (Some (str "05/03/2024")).
Proof.
  split; [reflexivity|]. split; [reflexivity|].
  apply parseDate_ignores_outer_space; reflexivity.
Defined.

(** X5. The date rule loses nothing: the trimmed text of an accepted cell
    is recovered from the ISO date, so two cells are given the same date
    only when their trimmed texts are the same. *)
Theorem parseDate_round_trip :
  forall (a : jsstring) (iso : jsstring),
    parseDate (Some a) = Some iso ->
    trim a = ddmmyyyy_of iso
    /\ forall b, parseDate (Some b) = Some iso -> trim b = trim a.
Proof.
  assert (R : forall a iso, parseDate (Some a) = Some iso ->
                            trim a = ddmmyyyy_of iso).
  { intros a iso. rewrite parseDate_trimmed.
    destruct (is_DDMMYYYY (trim a)) eqn:S; [|discriminate].
    intros H. injection H as <-. symmetry. now apply ddmmyyyy_of_iso_of. }
  intros a iso H. split; [now apply R|].
  intros b Hb. now rewrite (R _ _ H), (R _ _ Hb).
Qed.

Lemma parseDate_round_trip_witness :
  parseDate (Some (str " 05/03/2024")) = Some (str "2024-03-05")
  /\ trim (str " 05/03/2024") = ddmmyyyy_of (str "2024-03-05")
  /\ forall b, parseDate (Some b) = Some (str "2024-03-05") ->
               trim b = trim (str " 05/03/2024").
Proof.
  split; [reflexivity|].
  apply (@parseDate_round_trip (str " 05/03/2024") (str "2024-03-05")).
  reflexivity.
Defined.

(** X6. A cell that already holds an ISO date YYYY-MM-DD, with or
    without white space around it, is rejected; in particular the date
    rule never accepts its own output. *)
Theorem parseDate_rejects_iso :
  forall s : jsstring,
    is_ISO_shape (trim s) = true ->
    parseDate (Some s) = None
    /\ forall value, parseDate (parseDate value) = None.
Proof.
  assert (R : forall t, is_ISO_shape (trim t) = true -> parseDate (Some t) = None).
  { intros t It. rewrite parseDate_trimmed.
    now rewrite (iso_shape_not_ddmmyyyy _ It). }
  intros s I. split; [now apply R|].
  intros value. destruct (parseDate value) as [iso|] eqn:E; [|reflexivity].
  destruct value as [c|]; [|discriminate].
  rewrite parseDate_trimmed in E.
  destruct (is_DDMMYYYY (trim c)) eqn:S; [|discriminate].
  injection E as <-. apply R.
  pose proof (iso_of_shape _ S) as Sh.
  now rewrite (trim_fixed _ (iso_shape_no_outer_space _ Sh)).
Qed.

Lemma parseDate_rejects_iso_witness :
  is_ISO_shape (trim (str " 2024-03-05")) = true
  /\ parseDate (Some (str " 2024-03-05")) = None
  /\ forall value, parseDate (parseDate value) = None.
Proof.
  split; [reflexivity|].
  apply (@parseDate_rejects_iso (str " 2024-03-05")). reflexivity.
Defined.

(* ================================================================= *)
(** ** More on the currency rule *)

Lemma significant_other (c : N) :
  (c =? 46)%N = false -> (c =? 44)%N = false ->
  significant c = keep_numeric c.
Proof.
  intros N46 N44. unfold significant, keep_numeric.
  now rewrite N46, N44, !orb_false_r.
Qed.

Ltac filter_step :=
  repeat (progress (cbn [filter negb replace_first];
                    repeat match goal with
                           | H : _ = false |- _ => rewrite !H
                           | H : _ = true |- _ => rewrite !H
                           end)).

Lemma normalize_currency_significant (s : jsstring) :
  normalize_currency (filter significant s) = normalize_currency s.
Proof.
  unfold normalize_currency, strip.
  assert (K : forall t,
             filter keep_numeric
               (filter (fun c => negb (c =? 46)%N) (filter significant t))
             = filter keep_numeric (filter (fun c => negb (c =? 46)%N) t)).
  { induction t as [|c t IH]; [reflexivity|].
    cbn [filter].
    destruct (N.eqb_spec c 46) as [->|N46]; [exact IH|].
    destruct (N.eqb_spec c 44) as [->|N44]; [exact IH|].
    apply N.eqb_neq in N46, N44.
    rewrite (significant_other _ N46 N44).
    destruct (keep_numeric c) eqn:B; filter_step; now rewrite IH. }
  induction s as [|c s IH]; [reflexivity|].
  cbn [filter].
  destruct (N.eqb_spec c 46) as [->|N46]; [exact IH|].
  destruct (N.eqb_spec c 44) as [->|N44].
  - change (significant 44) with true.
    cbn [negb filter replace_first N.eqb Pos.eqb].
    change (keep_numeric 46) with true. cbv iota. f_equal. apply K.
  - apply N.eqb_neq in N46, N44.
    rewrite (significant_other _ N46 N44).
    destruct (keep_numeric c) eqn:B; filter_step; now rewrite IH.
Qed.

(** X7. Only the digits, the commas and ['-'] of an amount cell reach the
    number: points, currency signs, letters and spaces can be removed
    without changing the result. *)
Theorem parseCurrency_reads_significant_only :
  forall s : jsstring,
    parseCurrency (Some (filter significant s)) = parseCurrency (Some s).
Proof.
  intros s. unfold parseCurrency.
  rewrite normalize_currency_significant.
  destruct s as [|c s]; [reflexivity|].
  destruct (filter significant (c :: s)) as [|d t] eqn:E; [|reflexivity].
  cbn [truthy negb].
  rewrite <- normalize_currency_significant, E. reflexivity.
Qed.

Lemma binary_round_aux_sign (mx ex : Z) (lx : location) :
  binary_round_aux prec64 emax64 true mx ex lx
  = SFopp (binary_round_aux prec64 emax64 false mx ex lx).
Proof.
  unfold binary_round_aux.
  destruct (shr_fexp prec64 emax64 mx ex lx) as [mrs' e'].
  destruct (shr_fexp prec64 emax64 _ e' loc_Exact) as [mrs'' e''].
  destruct (shr_m mrs''); [reflexivity | | reflexivity].
  destruct (e'' <=? emax64 - prec64)%Z; reflexivity.
Qed.

Lemma decimal_to_Number_sign (m e10 : Z) :
  decimal_to_Number true m e10 = SFopp (decimal_to_Number false m e10).
Proof.
  unfold decimal_to_Number.
  destruct (m <=? 0)%Z; [reflexivity|].
  destruct (0 <=? e10)%Z.
  - destruct (m * 10 ^ e10)%Z; try reflexivity.
    unfold binary_round.
    destruct (shl_align _ _ _) as [mz ez]. apply binary_round_aux_sign.
  - apply binary_round_aux_sign.
Qed.

Lemma strict_equal_refl (x : Number) :
  Number_isFinite x = true -> strict_equal x x = true.
Proof.
  destruct x as [s|s| |s m e]; try discriminate; intros _.
  - reflexivity.
  - unfold strict_equal, SFeqb, SFcompare.
    rewrite Z.compare_refl.
    assert (C : Pos.compare_cont Eq m m = Eq) by apply Pos.compare_refl.
    rewrite C. destruct s; reflexivity.
Qed.

(** The text after a leading digit is read the same with a ['-'] in
    front, but for the sign. *)
Lemma parseFloat_minus_digit (d : N) (t : jsstring) :
  is_digit d = true ->
  parseFloat (45%N :: d :: t) = SFopp (parseFloat (d :: t)).
Proof.
  intros D. pose proof (digit_not_space _ D) as S.
  assert (N45 : (d =? 45)%N = false /\ (d =? 43)%N = false
                /\ (73 =? d)%N = false).
  { unfold is_digit in D. apply andb_true_iff in D. destruct D as [L U].
    apply N.leb_le in L, U. repeat split; apply N.eqb_neq; lia. }
  destruct N45 as (N45 & N43 & N73).
  unfold parseFloat.
  change (trimStart (45%N :: d :: t)) with (45%N :: d :: t).
  change (take_sign (45%N :: d :: t)) with (true, d :: t).
  rewrite trimStart_fixed by exact S.
  unfold take_sign. rewrite N45, N43.
  change (str "Infinity") with (73%N :: str "nfinity").
  cbn [starts_with]. rewrite N73. cbn [andb].
  destruct (span is_digit (d :: t)) as [ip r1].
  destruct (match r1 with
            | c :: t0 => if (c =? 46)%N then span is_digit t0 else ([], r1)
            | [] => ([], r1) end) as [fp r2].
  destruct (ip ++ fp); [reflexivity | apply decimal_to_Number_sign].
Qed.

(** X8. A ['-'] in front of an amount that starts with a digit gives the
    opposite number (as [===] compares numbers, the two zeros being
    equal). *)
Theorem parseCurrency_leading_minus :
  forall (d : N) (s : jsstring),
    is_digit d = true ->
    strict_equal (parseCurrency (Some (45%N :: d :: s)))
                 (SFopp (parseCurrency (Some (d :: s)))) = true.
Proof.
  intros d s D.
  assert (N46 : (d =? 46)%N = false /\ (d =? 44)%N = false).
  { unfold is_digit in D. apply andb_true_iff in D. destruct D as [L U].
    apply N.leb_le in L, U. split; apply N.eqb_neq; lia. }
  destruct N46 as (N46 & N44).
  assert (E : exists t, normalize_currency (d :: s) = d :: t
                        /\ normalize_currency (45%N :: d :: s) = 45%N :: d :: t).
  { unfold normalize_currency, strip. cbn [filter N.eqb Pos.eqb negb].
    rewrite N46. cbn [negb replace_first N.eqb Pos.eqb]. rewrite N44.
    cbn [filter]. change (keep_numeric 45) with true. cbv iota.
    assert (Kd : keep_numeric d = true) by (unfold keep_numeric; now rewrite D).
    rewrite Kd. eexists. split; reflexivity. }
  destruct E as (t & E1 & E2).
  unfold parseCurrency. cbn [truthy negb]. rewrite E1, E2.
  rewrite (@parseFloat_minus_digit d t D).
  destruct (parseFloat (d :: t)) as [sg|sg| |sg m e];
    cbn [SFopp Number_isFinite]; try reflexivity.
  apply strict_equal_refl. reflexivity.
Qed.

Lemma parseCurrency_leading_minus_witness :
  is_digit 49 = true
  /\ strict_equal (parseCurrency (Some (45%N :: 49%N :: str ".234,56")))
                  (SFopp (parseCurrency (Some (49%N :: str ".234,56")))) = true
  /\ parseCurrency (Some (str "-1.234,56"))
     = S754_finite true 5429652300748554 (-42).
Proof.
  split; [reflexivity|].
  split; [apply (@parseCurrency_leading_minus 49 (str ".234,56")); reflexivity|].
  reflexivity.
Defined.

(* ================================================================= *)
(** ** More on the normalizer *)

(** The fields of the record of an accepted row, read off the row. *)
Lemma registro_of_row_fields (row : list jsstring) (r : Registro) :
  registro_of_row (Some row) = Some r ->
  22 <= length row
  /\ parseDate (cell row 4) = Some (data r)
  /\ valor r = parseCurrency (cell row 14)
  /\ is_zero (valor r) = false
  /\ cliente_fornecedor r
     = or_string (option_map trim (cell row 0)) (str "Sem identificacao")
  /\ descricao r = or_string (option_map trim (cell row 12)) []
  /\ unidade r = or_null (option_map trim (cell row 21))
  /\ obs r = buildObservacao (cell row 11) (cell row 13)
  /\ datapag r = parseDate (cell row 5)
  /\ aluno r = or_null (option_map trim (cell row 3))
  /\ parcel r = or_null (option_map trim (cell row 13))
  /\ desc_pontual r
     = (if negb (is_zero (parseCurrency (cell row 16)))
        then Some (parseCurrency (cell row 16)) else None).
Proof.
  unfold registro_of_row.
  destruct (length row <? 22) eqn:L; [discriminate|].
  apply Nat.ltb_ge in L.
  destruct (parseDate (cell row 4)) as [d|]; [|discriminate].
  destruct (is_zero (parseCurrency (cell row 14))) eqn:Z;
    [rewrite orb_true_r; discriminate|].
  destruct (negb _ || false); [discriminate|].
  intros H. injection H as <-.
  split; [exact L|]. split; [reflexivity|]. split; [reflexivity|].
  split; [exact Z|]. repeat (split; [reflexivity|]). reflexivity.
Qed.

Lemma or_null_nonempty (v : option jsstring) : or_null v <> Some [].
Proof. unfold or_null. destruct v as [[|c s]|]; discriminate. Qed.

Lemma or_null_trim (v : option jsstring) (t : jsstring) :
  or_null (option_map trim v) = Some t ->
  no_outer_space t = true /\ t <> [] /\ t = trimmed v.
Proof.
  unfold or_null. destruct v as [s|]; [|discriminate]. cbn [option_map trimmed].
  destruct (trim s) as [|c u] eqn:E; [discriminate|]. cbn [truthy].
  intros H. injection H as <-. rewrite <- E.
  split; [apply trim_no_outer_space|]. split; [now rewrite E | reflexivity].
Qed.

Lemma or_string_trim (v : option jsstring) (d : jsstring) :
  no_outer_space d = true ->
  no_outer_space (or_string (option_map trim v) d) = true.
Proof.
  intros D. destruct v as [s|]; [|exact D]. cbn [option_map or_string].
  destruct (trim s) as [|c u] eqn:E; [exact D|]. rewrite <- E.
  apply trim_no_outer_space.
Qed.

Lemma last_app_cons {A} (l : list A) (a : A) (l' : list A) (d : A) :
  last (l ++ a :: l') d = last (a :: l') d.
Proof.
  induction l as [|x l IH]; [reflexivity|].
  cbn [app]. rewrite <- IH. cbn [last].
  destruct (l ++ a :: l') eqn:E; [destruct l; discriminate | reflexivity].
Qed.

Lemma last_default {A} (a : A) (l : list A) (d d' : A) :
  last (a :: l) d = last (a :: l) d'.
Proof.
  revert a. induction l as [|x l IH]; intros a; [reflexivity|].
  cbn [last]. apply (IH x).
Qed.

Lemma no_outer_space_join (c : N) (cs m : jsstring) (p : N) (ps : jsstring) :
  no_outer_space (c :: cs) = true ->
  no_outer_space (p :: ps) = true ->
  no_outer_space ((c :: cs) ++ m ++ p :: ps) = true.
Proof.
  cbn [no_outer_space]. intros Hc Hp.
  apply andb_true_iff in Hc, Hp. destruct Hc as [Hc _], Hp as [_ Hp].
  cbn [app no_outer_space]. rewrite Hc. cbn [andb].
  assert (E : c :: cs ++ m ++ p :: ps = (c :: cs ++ m) ++ p :: ps)
    by (cbn [app]; now rewrite app_assoc).
  rewrite E, last_app_cons, (last_default p ps c p). exact Hp.
Qed.

Lemma buildObservacao_no_outer_space (categoria parcela : option jsstring)
  (t : jsstring) :
  buildObservacao categoria parcela = Some t -> no_outer_space t = true.
Proof.
  rewrite buildObservacao_cases.
  assert (Tc : no_outer_space (trimmed categoria) = true)
    by (destruct categoria; [apply trim_no_outer_space | reflexivity]).
  assert (Tp : no_outer_space (trimmed parcela) = true)
    by (destruct parcela; [apply trim_no_outer_space | reflexivity]).
  destruct (trimmed categoria) as [|c cs], (trimmed parcela) as [|p ps];
    try discriminate; intros H; injection H as <-; try assumption.
  now apply (@no_outer_space_join c cs (str " / ") p ps).
Qed.

(** X9. The first row of the sheet never reaches the output, whatever it
    holds, and the rows after it are normalized one by one: the records
    of two runs of rows put end to end are the records of the first run
    followed by those of the second. A sheet of at most its header row
    gives no record. *)
Theorem buildLancamentosEntrada_row_by_row :
  forall (h h' : RecebimentoRow) (rows1 rows2 : list RecebimentoRow),
    buildLancamentosEntrada (h :: rows1) = buildLancamentosEntrada (h' :: rows1)
    /\ buildLancamentosEntrada (h :: rows1 ++ rows2)
       = buildLancamentosEntrada (h :: rows1)
           ++ buildLancamentosEntrada (h :: rows2)
    /\ buildLancamentosEntrada [h] = []
    /\ buildLancamentosEntrada [] = [].
Proof.
  intros h h' rows1 rows2. rewrite !buildLancamentosEntrada_flat_map.
  cbn [skipn]. split; [reflexivity|]. split; [apply flat_map_app|].
  split; reflexivity.
Qed.

(** X10. There are never more records than rows after the header, and
    there are as many exactly when every such row has at least 22 cells, a
    due date that parses and an amount other than zero. *)
Theorem buildLancamentosEntrada_length :
  forall values : list RecebimentoRow,
    length (buildLancamentosEntrada values) <= length values - 1
    /\ (length (buildLancamentosEntrada values) = length values - 1
        <-> forallb included (skipn 1 values) = true).
Proof.
  intros values.
  assert (L : length (buildLancamentosEntrada values)
              = length (filter included (skipn 1 values))).
  { rewrite buildLancamentosEntrada_flat_map. symmetry.
    exact (Forall2_length (emitted_filter (skipn 1 values))). }
  assert (S : length (skipn 1 values) = length values - 1)
    by apply length_skipn.
  rewrite L, <- S. split; [apply filter_length_le|]. split.
  - apply filter_length_forallb.
  - intros F. f_equal. clear L S.
    induction (skipn 1 values) as [|row rows IH]; [reflexivity|].
    cbn [forallb filter] in *. apply andb_true_iff in F.
    destruct F as [-> F]. f_equal. now apply IH.
Qed.

(** X11. In every record of the output the amount is a finite number
    other than zero; the punctual discount, when the key is set, is a
    finite number other than zero; the counterparty is never empty; unit,
    student, installment are null rather than empty; and the payment date,
    when there is one, has the ISO shape. *)
Theorem registro_well_formed :
  forall (values : list RecebimentoRow) (r : Registro),
    In r (buildLancamentosEntrada values) ->
    Number_isFinite (valor r) = true /\ is_zero (valor r) = false
    /\ (forall x, desc_pontual r = Some x ->
                  Number_isFinite x = true /\ is_zero x = false)
    /\ cliente_fornecedor r <> []
    /\ unidade r <> Some [] /\ aluno r <> Some [] /\ parcel r <> Some []
    /\ (forall d, datapag r = Some d -> is_ISO_shape d = true).
Proof.
  intros values r H. apply In_buildLancamentosEntrada in H.
  destruct H as (row & _ & E). apply registro_of_row_fields in E.
  destruct E as (_ & _ & V & Z & C & _ & U & _ & P & A & Pa & D).
  split; [rewrite V; apply parseCurrency_finite|]. split; [exact Z|].
  split.
  { intros x Hx. rewrite D in Hx.
    destruct (is_zero (parseCurrency (cell row 16))) eqn:Zd; [discriminate|].
    cbn [negb] in Hx. injection Hx as <-.
    split; [apply parseCurrency_finite | exact Zd]. }
  split.
  { rewrite C. destruct (option_map trim (cell row 0)) as [[|c s]|];
      discriminate. }
  split; [rewrite U; apply or_null_nonempty|].
  split; [rewrite A; apply or_null_nonempty|].
  split; [rewrite Pa; apply or_null_nonempty|].
  intros d Hd. rewrite P in Hd.
  destruct (cell row 5) as [c|]; [|discriminate].
  rewrite parseDate_trimmed in Hd.
  destruct (is_DDMMYYYY (trim c)) eqn:S; [|discriminate].
  injection Hd as <-. now apply iso_of_shape.
Qed.

Lemma registro_well_formed_witness :
  In sample_registro_pago (buildLancamentosEntrada sample_values)
  /\ Number_isFinite (valor sample_registro_pago) = true
  /\ is_zero (valor sample_registro_pago) = false
  /\ (forall x, desc_pontual sample_registro_pago = Some x ->
                Number_isFinite x = true /\ is_zero x = false)
  /\ cliente_fornecedor sample_registro_pago <> []
  /\ unidade sample_registro_pago <> Some []
  /\ aluno sample_registro_pago <> Some []
  /\ parcel sample_registro_pago <> Some []
  /\ (forall d, datapag sample_registro_pago = Some d ->
                is_ISO_shape d = true).
Proof.
  assert (H : In sample_registro_pago (buildLancamentosEntrada sample_values))
    by (vm_compute; right; left; reflexivity).
  split; [exact H|].
  exact (registro_well_formed sample_values sample_registro_pago H).
Defined.

(** X12. No text of a record starts or ends with white space:
    counterparty, description, unit, student, installment and note are
    stored trimmed. *)
Theorem registro_texts_trimmed :
  forall (values : list RecebimentoRow) (r : Registro),
    In r (buildLancamentosEntrada values) ->
    no_outer_space (cliente_fornecedor r) = true
    /\ no_outer_space (descricao r) = true
    /\ (forall t, unidade r = Some t -> no_outer_space t = true)
    /\ (forall t, aluno r = Some t -> no_outer_space t = true)
    /\ (forall t, parcel r = Some t -> no_outer_space t = true)
    /\ (forall t, obs r = Some t -> no_outer_space t = true).
Proof.
  intros values r H. apply In_buildLancamentosEntrada in H.
  destruct H as (row & _ & E). apply registro_of_row_fields in E.
  destruct E as (_ & _ & _ & _ & C & De & U & O & _ & A & Pa & _).
  split; [rewrite C; now apply or_string_trim|].
  split; [rewrite De; now apply or_string_trim|].
  split; [intros t Ht; rewrite U in Ht; now apply or_null_trim in Ht|].
  split; [intros t Ht; rewrite A in Ht; now apply or_null_trim in Ht|].
  split; [intros t Ht; rewrite Pa in Ht; now apply or_null_trim in Ht|].
  intros t Ht. rewrite O in Ht. exact (buildObservacao_no_outer_space _ _ Ht).
Qed.

Lemma registro_texts_trimmed_witness :
  In sample_registro_pago (buildLancamentosEntrada sample_values)
  /\ no_outer_space (cliente_fornecedor sample_registro_pago) = true
  /\ no_outer_space (descricao sample_registro_pago) = true
  /\ (forall t, unidade sample_registro_pago = Some t ->
                no_outer_space t = true)
  /\ (forall t, aluno sample_registro_pago = Some t -> no_outer_space t = true)
  /\ (forall t, parcel sample_registro_pago = Some t ->
                no_outer_space t = true)
  /\ (forall t, obs sample_registro_pago = Some t -> no_outer_space t = true).
Proof.
  assert (H : In sample_registro_pago (buildLancamentosEntrada sample_values))
    by (vm_compute; right; left; reflexivity).
  split; [exact H|].
  exact (registro_texts_trimmed sample_values sample_registro_pago H).
Defined.

(** X13. A record with an installment has a note, and the note ends with
    the installment: it is the installment alone, or the category, " / "
    and the installment. *)
Theorem note_ends_with_installment :
  forall (values : list RecebimentoRow) (r : Registro) (p : jsstring),
    In r (buildLancamentosEntrada values) ->
    parcel r = Some p ->
    obs r = Some p
    \/ exists c, c <> [] /\ obs r = Some (c ++ str " / " ++ p).
Proof.
  intros values r p H Hp. apply In_buildLancamentosEntrada in H.
  destruct H as (row & _ & E). apply registro_of_row_fields in E.
  destruct E as (_ & _ & _ & _ & _ & _ & _ & O & _ & _ & Pa & _).
  rewrite Pa in Hp. apply or_null_trim in Hp. destruct Hp as (_ & N & ->).
  rewrite O, buildObservacao_cases.
  destruct (trimmed (cell row 13)) as [|q qs]; [congruence|].
  destruct (trimmed (cell row 11)) as [|c cs]; [now left|].
  right. exists (c :: cs). split; [discriminate | reflexivity].
Qed.

Lemma note_ends_with_installment_witness :
  In sample_registro_pago (buildLancamentosEntrada sample_values)
  /\ parcel sample_registro_pago = Some (str "2/12")
  /\ (obs sample_registro_pago = Some (str "2/12")
      \/ exists c, c <> []
                   /\ obs sample_registro_pago
                      = Some (c ++ str " / " ++ str "2/12")).
Proof.
  assert (H : In sample_registro_pago (buildLancamentosEntrada sample_values))
    by (vm_compute; right; left; reflexivity).
  split; [exact H|]. split; [reflexivity|].
  exact (@note_ends_with_installment sample_values sample_registro_pago
           (str "2/12") H eq_refl).
Defined.

(* ================================================================= *)
(** ** More on the handler *)

Lemma chunkArray_nonempty_chunks {T} (items : list T) (size : nat)
  (batches : list (list T)) :
  0 < size -> items <> [] ->
  chunkArray items size = Some batches ->
  concat batches = items
  /\ Forall (fun b => 0 < length b <= size) batches.
Proof.
  intros S N E.
  destruct (chunkArray_ends items S) as (bs & E' & C & _).
  rewrite E in E'. injection E' as <-. split; [exact C|].
  destruct (chunkArray_shape S N) as (init & lst & E2 & Fi & Fl & _).
  rewrite E in E2. injection E2 as ->.
  apply Forall_app. split.
  - eapply Forall_impl; [|exact Fi]. cbn. intros b Hb. lia.
  - constructor; [exact Fl | constructor].
Qed.

Lemma healthy_hd (w : World) : healthy w -> hd None (pending w) = None.
Proof.
  unfold healthy. destruct (pending w) as [|o rest]; [reflexivity|].
  intros H. now inversion H.
Qed.

Lemma healthy_tl (w : World) (t : list Registro) (c : list StoreCall) :
  healthy w -> healthy (mkWorld t (tl (pending w)) c).
Proof.
  unfold healthy. cbn [pending]. destruct (pending w) as [|o rest];
    [constructor|]. intros H. now inversion H.
Qed.

Lemma insert_lotes_healthy (batches : list (list Registro)) :
  forall w, healthy w ->
    exists w',
      insert_lotes batches w = Some (Normal tt, w')
      /\ table w' = table w ++ concat batches
      /\ calls w' = calls w ++ insert_calls batches
      /\ healthy w'.
Proof.
  induction batches as [|lote batches IH]; intros w H.
  - exists w. cbn [concat insert_calls map]. rewrite !app_nil_r. now repeat split.
  - rewrite insert_lotes_cons, (healthy_hd H). cbv zeta.
    destruct (IH _ (healthy_tl (table w ++ lote)
                               (calls w ++ [CallInsert lote]) H))
      as (w' & E & T & C & H').
    exists w'. split; [exact E|]. cbn [table calls] in T, C.
    split; [rewrite T; cbn [concat]; now rewrite app_assoc|].
    split; [rewrite C; cbn [insert_calls map]; now rewrite <- app_assoc | exact H'].
Qed.

(** What an [insert_lotes] that ended has done: it sent the first [j]
    batches; all of them are stored when it completed normally, all but
    the last one sent when it threw. *)
Lemma insert_lotes_prefix (batches : list (list Registro)) :
  forall w c w',
    insert_lotes batches w = Some (c, w') ->
    exists j,
      calls w' = calls w ++ insert_calls (firstn j batches)
      /\ match c with
         | Normal _ => j = length batches
                       /\ table w' = table w ++ concat batches
         | Throw e => 0 < j <= length batches
                      /\ table w' = table w ++ concat (firstn (j - 1) batches)
                      /\ exists m, e = ErrorObject (insert_failure m)
         end.
Proof.
  induction batches as [|lote batches IH]; intros w c w' E.
  - cbn in E. injection E as <- <-. exists 0. cbn. now rewrite !app_nil_r.
  - rewrite insert_lotes_cons in E. cbv zeta in E.
    destruct (hd None (pending w)) as [m|].
    + injection E as <- <-. exists 1. cbn [firstn insert_calls map table calls].
      split; [reflexivity|]. split; [cbn; lia|].
      split; [cbn; now rewrite app_nil_r | now exists m].
    + apply IH in E. destruct E as (j & C & R). exists (S j).
      cbn [table calls] in C, R. cbn [firstn insert_calls map length].
      split; [rewrite C; unfold insert_calls; now rewrite <- app_assoc|].
      destruct c as [u|e].
      * destruct R as [-> T]. split; [reflexivity|].
        rewrite T. cbn [concat]. now rewrite app_assoc.
      * destruct R as (J & T & M). split; [lia|]. split; [|exact M].
        rewrite T. replace (S j - 1) with (S (j - 1)) by lia.
        cbn [firstn concat]. now rewrite app_assoc.
Qed.

Lemma serve_healthy (values : list RecebimentoRow) (w : World) :
  healthy w ->
  let registros := buildLancamentosEntrada values in
  exists w' batches,
    serve (str "POST") (ReplyValues values) w
    = Some (jsonResponse
              (mkPayload true (import_message (length registros))
                         (Some (length registros))) 200, w')
    /\ table w' = filter not_entrada (table w) ++ registros
    /\ calls w' = calls w ++ delete_entradas :: insert_calls batches
    /\ concat batches = registros
    /\ healthy w'.
Proof.
  intros H registros.
  rewrite serve_post, import_entradas_values, store_delete_hd, (healthy_hd H).
  cbv zeta. fold registros.
  destruct (0 <? length registros) eqn:P.
  - destruct (chunkArray_ends registros (size := 500)) as (batches & E & C & _);
      [lia|].
    rewrite E.
    destruct (insert_lotes_healthy batches
                (healthy_tl
                   (filter (fun r => negb (jsstring_eqb (tipo r) (str "Entrada")))
                           (table w))
                   (calls w ++ [CallDeleteEq (str "tipo") (str "Entrada")]) H))
      as (w' & I & T & Cs & H').
    rewrite I. exists w', batches. split; [reflexivity|].
    cbn [table calls] in T, Cs.
    split; [rewrite T, C; reflexivity|].
    split; [rewrite Cs, <- app_assoc; reflexivity|]. split; assumption.
  - apply Nat.ltb_ge in P.
    assert (Z : registros = []) by (destruct registros; [reflexivity | cbn in P; lia]).
    eexists _, []. split; [reflexivity|]. cbn [table calls].
    rewrite Z. split; [now rewrite app_nil_r|]. split; [reflexivity|].
    split; [reflexivity|]. now apply healthy_tl.
Qed.

(** X14. When the sheet is read and the store lets every call succeed,
    the run answers with status 200 and the JSON payload
    [{ success: true, message, total_importado }] that counts the
    normalized records, and the table then holds the rows of the other
    categories followed by the normalized records, in their order: the
    delete is followed by inserts of batches that together are those
    records. *)
Theorem import_replaces_entradas :
  forall (values : list RecebimentoRow) (w : World),
    healthy w ->
    exists response w' batches,
      serve (str "POST") (ReplyValues values) w = Some (response, w')
      /\ resp_status response = 200
      /\ resp_body response
         = JsonBody (mkPayload true
                       (str "Importa" ++ [231%N; 227%N] ++ str "o conclu"
                          ++ [237%N] ++ str "da com "
                          ++ decimal (length (buildLancamentosEntrada values))
                          ++ str " lan" ++ [231%N]
                          ++ str "amentos de entrada.")
                       (Some (length (buildLancamentosEntrada values))))
      /\ table w' = filter not_entrada (table w)
                      ++ buildLancamentosEntrada values
      /\ calls w' = calls w ++ delete_entradas :: insert_calls batches
      /\ concat batches = buildLancamentosEntrada values.
Proof.
  intros values w H.
  destruct (serve_healthy values H) as (w' & batches & S & T & C & B & _).
  eexists _, w', batches. split; [exact S|].
  split; [reflexivity|]. split; [reflexivity|]. now repeat split.
Qed.

Lemma import_replaces_entradas_witness :
  let w := mkWorld [sample_registro_pago] [None; None] [] in
  healthy w
  /\ exists response w' batches,
       serve (str "POST") (ReplyValues sample_values) w = Some (response, w')
       /\ resp_status response = 200
       /\ resp_body response
          = JsonBody (mkPayload true
                        (str "Importa" ++ [231%N; 227%N] ++ str "o conclu"
                           ++ [237%N] ++ str "da com "
                           ++ decimal
                                (length (buildLancamentosEntrada sample_values))
                           ++ str " lan" ++ [231%N]
                           ++ str "amentos de entrada.")
                        (Some (length (buildLancamentosEntrada sample_values))))
       /\ table w' = filter not_entrada (table w)
                       ++ buildLancamentosEntrada sample_values
       /\ calls w' = calls w ++ delete_entradas :: insert_calls batches
       /\ concat batches = buildLancamentosEntrada sample_values.
Proof.
  intros w.
  assert (H : healthy w) by (repeat constructor).
  split; [exact H|]. exact (import_replaces_entradas sample_values H).
Defined.

(** X15. Importing the same sheet twice in a row, the store letting every
    call succeed, does not accumulate records: the second run deletes
    what the first inserted, so that the table then holds the rows that
    the other categories had before the first run, followed by one copy
    of the normalized records (as records; the identities a store gives
    to its rows are not part of the table here), and both responses have
    status 200 and count those records. *)
Theorem reimport_does_not_accumulate :
  forall (values : list RecebimentoRow) (w : World),
    healthy w ->
    exists r1 w1 r2 w2,
      serve (str "POST") (ReplyValues values) w = Some (r1, w1)
      /\ serve (str "POST") (ReplyValues values) w1 = Some (r2, w2)
      /\ table w2 = filter not_entrada (table w)
                      ++ buildLancamentosEntrada values
      /\ resp_status r1 = 200 /\ resp_status r2 = 200
      /\ (exists p, resp_body r1 = JsonBody p /\ resp_body r2 = JsonBody p
                    /\ success p = true
                    /\ total_importado p
                       = Some (length (buildLancamentosEntrada values))).
Proof.
  intros values w H.
  destruct (serve_healthy values H) as (w1 & b1 & S1 & T1 & _ & _ & H1).
  destruct (serve_healthy values H1) as (w2 & b2 & S2 & T2 & _ & _ & _).
  eexists _, w1, _, w2. split; [exact S1|]. split; [exact S2|]. split.
  - rewrite T2, T1, filter_app, filter_idempotent.
    rewrite (filter_not_entrada_lote (buildLancamentosEntrada_tipo values)).
    now rewrite app_nil_r.
  - split; [reflexivity|]. split; [reflexivity|].
    eexists. split; [reflexivity|]. split; [reflexivity|].
    split; reflexivity.
Qed.

Lemma reimport_does_not_accumulate_witness :
  let w := mkWorld [sample_registro_pago] [] [] in
  healthy w
  /\ exists r1 w1 r2 w2,
       serve (str "POST") (ReplyValues sample_values) w = Some (r1, w1)
       /\ serve (str "POST") (ReplyValues sample_values) w1 = Some (r2, w2)
       /\ table w2 = filter not_entrada (table w)
                       ++ buildLancamentosEntrada sample_values
       /\ resp_status r1 = 200 /\ resp_status r2 = 200
       /\ (exists p, resp_body r1 = JsonBody p /\ resp_body r2 = JsonBody p
                     /\ success p = true
                     /\ total_importado p
                        = Some (length (buildLancamentosEntrada sample_values))).
Proof.
  intros w.
  assert (H : healthy w) by constructor.
  split; [exact H|]. exact (reimport_does_not_accumulate sample_values H).
Defined.

(** X16. A success payload tells the truth: whenever the run answers
    with [success: true], the sheet was read, [total_importado] is the
    number of normalized records, and the table holds the rows of the
    other categories followed by exactly those records. *)
Theorem success_payload_is_truthful :
  forall (method : jsstring) (reply : SheetsReply) (w w' : World)
         (response : Response) (p : Payload),
    serve method reply w = Some (response, w') ->
    resp_body response = JsonBody p ->
    success p = true ->
    exists values,
      reply = ReplyValues values
      /\ jsstring_eqb method (str "POST") = true
      /\ resp_status response = 200
      /\ total_importado p = Some (length (buildLancamentosEntrada values))
      /\ table w' = filter not_entrada (table w)
                      ++ buildLancamentosEntrada values.
Proof.
  intros method reply w w' response p. unfold serve.
  destruct (jsstring_eqb method (str "OPTIONS"));
    [intros H; injection H as <- <-; discriminate|].
  destruct (jsstring_eqb method (str "POST")); cbn [negb];
    [|intros H; injection H as <- <-; intros B; injection B as <-;
      discriminate].
  destruct reply as [m | code st de | | values];
    try (intros H; injection H as <- <-; intros B; injection B as <-;
         discriminate).
  rewrite import_entradas_values, store_delete_hd. cbv zeta.
  destruct (hd None (pending w)) as [m|];
    [intros H; injection H as <- <-; intros B; injection B as <-;
     discriminate|].
  destruct (0 <? length (buildLancamentosEntrada values)) eqn:P.
  - destruct (chunkArray_ends (buildLancamentosEntrada values) (size := 500))
      as (batches & E & C & _); [lia|].
    rewrite E.
    destruct (insert_lotes batches _) as [[[u|e] w2]|] eqn:I;
      [| intros H; injection H as <- <-; intros B; injection B as <-;
         discriminate | discriminate].
    apply insert_lotes_prefix in I. destruct I as (j & _ & _ & T).
    intros H; injection H as <- <-; intros B; injection B as <-; intros _.
    exists values. cbn [table] in T. rewrite T, C. now repeat split.
  - apply Nat.ltb_ge in P.
    assert (Z : buildLancamentosEntrada values = [])
      by (destruct (buildLancamentosEntrada values);
          [reflexivity | cbn in P; lia]).
    intros H; injection H as <- <-; intros B; injection B as <-; intros _.
    exists values. cbn [table]. rewrite Z, app_nil_r. now repeat split.
Qed.

Lemma success_payload_is_truthful_witness :
  let w := mkWorld [sample_registro_pago] [] [] in
  let n := length (buildLancamentosEntrada sample_values) in
  let w' := mkWorld (buildLancamentosEntrada sample_values) []
              [delete_entradas;
               CallInsert (buildLancamentosEntrada sample_values)] in
  let p := mkPayload true (import_message n) (Some n) in
  serve (str "POST") (ReplyValues sample_values) w
  = Some (jsonResponse p 200, w')
  /\ exists values,
       ReplyValues sample_values = ReplyValues values
       /\ jsstring_eqb (str "POST") (str "POST") = true
       /\ resp_status (jsonResponse p 200) = 200
       /\ total_importado p = Some (length (buildLancamentosEntrada values))
       /\ table w' = filter not_entrada (table w)
                       ++ buildLancamentosEntrada values.
Proof.
  intros w n w' p.
  assert (S : serve (str "POST") (ReplyValues sample_values) w
              = Some (jsonResponse p 200, w')) by (vm_compute; reflexivity).
  split; [exact S|].
  exact (@success_payload_is_truthful (str "POST") (ReplyValues sample_values)
           w w' (jsonResponse p 200) p S eq_refl eq_refl).
Defined.

Lemma insert_lotes_fails_at (k : nat) :
  forall (batches : list (list Registro)) (w : World) (m : jsstring)
         (rest : list (option jsstring)),
    pending w = repeat None k ++ Some m :: rest ->
    k < length batches ->
    exists w',
      insert_lotes batches w = Some (Throw (ErrorObject (insert_failure m)), w')
      /\ table w' = table w ++ concat (firstn k batches)
      /\ calls w' = calls w ++ insert_calls (firstn (S k) batches).
Proof.
  induction k as [|k IH]; intros batches w m rest P L;
    (destruct batches as [|lote batches]; [cbn in L; lia|]);
    rewrite insert_lotes_cons, P; cbv zeta; cbn [repeat app hd tl].
  - eexists. split; [reflexivity|]. cbn [table calls firstn concat].
    now rewrite app_nil_r.
  - destruct (IH batches
                (mkWorld (table w ++ lote) (repeat None k ++ Some m :: rest)
                         (calls w ++ [CallInsert lote])) m rest)
      as (w' & E & T & C); [reflexivity | cbn in L; lia|].
    exists w'. split; [exact E|]. cbn [table calls] in T, C.
    split; [rewrite T; cbn [firstn concat]; now rewrite app_assoc|].
    rewrite C. cbn [firstn insert_calls map]. now rewrite <- app_assoc.
Qed.

(** X17. When the delete and the first [k] inserts succeed and the next
    insert fails, the run answers with status 500 and the JSON payload
    [{ success: false, message }] with the message of that insert, the
    batches after it are not sent, and the table holds the rows of the
    other categories followed by the first [k] batches. *)
Theorem insert_failure_keeps_earlier_batches :
  forall (values : list RecebimentoRow) (batches : list (list Registro))
         (w : World) (k : nat) (m : jsstring)
         (rest : list (option jsstring)),
    buildLancamentosEntrada values <> [] ->
    chunkArray (buildLancamentosEntrada values) 500 = Some batches ->
    k < length batches ->
    pending w = None :: repeat None k ++ Some m :: rest ->
    exists response w',
      serve (str "POST") (ReplyValues values) w = Some (response, w')
      /\ resp_status response = 500
      /\ resp_body response
         = JsonBody (mkPayload false
                       (str "Falha ao inserir lan" ++ [231%N]
                          ++ str "amentos: " ++ m)
                       None)
      /\ table w' = filter not_entrada (table w) ++ concat (firstn k batches)
      /\ calls w' = calls w ++ delete_entradas
                                :: insert_calls (firstn (S k) batches).
Proof.
  intros values batches w k m rest N E L P.
  rewrite serve_post, import_entradas_values, store_delete_hd, P.
  cbv zeta. cbn [hd tl].
  assert (Pos : (0 <? length (buildLancamentosEntrada values)) = true).
  { apply Nat.ltb_lt. destruct (buildLancamentosEntrada values);
      [congruence | cbn; lia]. }
  rewrite Pos, E.
  destruct (@insert_lotes_fails_at k batches
              (mkWorld (filter (fun r => negb (jsstring_eqb (tipo r)
                                                 (str "Entrada"))) (table w))
                       (repeat None k ++ Some m :: rest)
                       (calls w ++ [CallDeleteEq (str "tipo") (str "Entrada")]))
              m rest eq_refl L) as (w' & I & T & C).
  rewrite I. eexists _, w'. split; [reflexivity|]. cbn [table calls] in T, C.
  split; [reflexivity|]. split; [reflexivity|].
  split; [exact T|]. rewrite C, <- app_assoc. reflexivity.
Qed.

Lemma insert_failure_keeps_earlier_batches_witness :
  let values := sample_values_1200 in
  let registros := buildLancamentosEntrada values in
  let batches := [slice registros 0 500; slice registros 500 1000;
                  slice registros 1000 1500] in
  let w := mkWorld [sample_registro_pago]
                   [None; None; None; Some (str "timeout")] [] in
  registros <> []
  /\ chunkArray registros 500 = Some batches
  /\ 2 < length batches
  /\ pending w = None :: repeat None 2 ++ Some (str "timeout") :: []
  /\ exists response w',
       serve (str "POST") (ReplyValues values) w = Some (response, w')
       /\ resp_status response = 500
       /\ resp_body response
          = JsonBody (mkPayload false
                        (str "Falha ao inserir lan" ++ [231%N]
                           ++ str "amentos: " ++ str "timeout")
                        None)
       /\ table w' = filter not_entrada (table w) ++ concat (firstn 2 batches)
       /\ calls w' = calls w ++ delete_entradas
                                 :: insert_calls (firstn 3 batches).
Proof.
  intros values registros batches w.
  assert (L : length registros = 1200) by (vm_compute; reflexivity).
  assert (N : registros <> [])
    by (intros Z; rewrite Z in L; discriminate L).
  assert (E : chunkArray registros 500 = Some batches)
    by (apply chunkArray_1200; exact L).
  assert (K : 2 < length batches) by (cbn; lia).
  assert (P : pending w = None :: repeat None 2 ++ Some (str "timeout") :: [])
    by reflexivity.
  split; [exact N|]. split; [exact E|]. split; [exact K|]. split; [exact P|].
  exact (@insert_failure_keeps_earlier_batches values batches w 2
           (str "timeout") [] N E K P).
Defined.

(** X18. The store is reached only by a POST whose sheet reply carries
    values: a request with another method, or a run whose sheet request
    was rejected, not ok or without the values array, ends with the world
    as it was, and its JSON payload, when it has one, is a failure with
    status 405 or 500 and no [total_importado]. *)
Theorem no_store_access_without_values :
  forall (method : jsstring) (reply : SheetsReply) (w : World),
    jsstring_eqb method (str "POST") = false
    \/ (forall values, reply <> ReplyValues values) ->
    exists response,
      serve method reply w = Some (response, w)
      /\ forall p, resp_body response = JsonBody p ->
                   success p = false /\ total_importado p = None
                   /\ (resp_status response = 405
                       \/ resp_status response = 500).
Proof.
  intros method reply w H. unfold serve.
  destruct (jsstring_eqb method (str "OPTIONS")) eqn:O.
  { eexists. split; [reflexivity|]. intros p B. discriminate B. }
  destruct (jsstring_eqb method (str "POST")) eqn:P; cbn [negb].
  - destruct H as [H|H]; [discriminate|].
    destruct reply as [m | code st de | | values];
      try (eexists; split; [reflexivity|];
           intros p B; injection B as <-; cbn; auto).
    exfalso. now apply (H values).
  - eexists. split; [reflexivity|].
    intros p B. injection B as <-. cbn. auto.
Qed.

Lemma no_store_access_without_values_witness :
  let w := mkWorld [sample_registro_pago] [Some (str "down")] [] in
  (jsstring_eqb (str "GET") (str "POST") = false
   \/ forall values, ReplyValues sample_values <> ReplyValues values)
  /\ exists response,
       serve (str "GET") (ReplyValues sample_values) w = Some (response, w)
       /\ forall p, resp_body response = JsonBody p ->
                    success p = false /\ total_importado p = None
                    /\ (resp_status response = 405
                        \/ resp_status response = 500).
Proof.
  intros w.
  assert (H : jsstring_eqb (str "GET") (str "POST") = false
              \/ forall values, ReplyValues sample_values <> ReplyValues values)
    by (left; reflexivity).
  split; [exact H|].
  exact (@no_store_access_without_values (str "GET")
           (ReplyValues sample_values) w H).
Defined.

Lemma import_entradas_completion (reply : SheetsReply) (w w' : World)
  (c : Completion Response) :
  import_entradas reply w = Some (c, w') ->
  match c with
  | Normal response =>
      exists n, response
                = jsonResponse (mkPayload true (import_message n) (Some n)) 200
  | Throw e => True
  end.
Proof.
  destruct c as [response|e]; [|trivial].
  destruct reply as [m | code st de | | values]; try discriminate.
  rewrite import_entradas_values, store_delete_hd. cbv zeta.
  destruct (hd None (pending w)); [discriminate|].
  destruct (0 <? _).
  - destruct (chunkArray _ 500); [|discriminate].
    destruct (insert_lotes _ _) as [[[u|e] w2]|]; try discriminate.
    intros H. injection H as <- _. eexists. reflexivity.
  - intros H. injection H as <- _. eexists. reflexivity.
Qed.

(** X19. The parts of a response agree: a text body is the "ok" of an
    OPTIONS request, with status 200; a JSON payload has status 200, 405
    or 500, [success] is true exactly when the status is 200, and
    [total_importado] is present exactly then; status 405 is the answer
    to the methods other than POST and OPTIONS. *)
Theorem response_is_consistent :
  forall (method : jsstring) (reply : SheetsReply) (w w' : World)
         (response : Response),
    serve method reply w = Some (response, w') ->
    match resp_body response with
    | TextBody text =>
        text = str "ok" /\ resp_status response = 200
        /\ jsstring_eqb method (str "OPTIONS") = true
    | JsonBody p =>
        (resp_status response = 200 \/ resp_status response = 405
         \/ resp_status response = 500)
        /\ (success p = true <-> resp_status response = 200)
        /\ (total_importado p <> None <-> resp_status response = 200)
        /\ (resp_status response = 405
            <-> jsstring_eqb method (str "POST") = false)
        /\ jsstring_eqb method (str "OPTIONS") = false
    end.
Proof.
  intros method reply w w' response. unfold serve.
  destruct (jsstring_eqb method (str "OPTIONS")) eqn:O.
  { intros H. injection H as <- _. cbn. auto. }
  destruct (jsstring_eqb method (str "POST")) eqn:P; cbn [negb].
  - destruct (import_entradas reply w) as [[[r|e] w1]|] eqn:E;
      [| |discriminate]; intros H; injection H as <- _.
    + apply import_entradas_completion in E. destruct E as [n ->]. cbn.
      repeat split; auto; try discriminate.
    + cbn. repeat split; auto; try discriminate; intros H; try discriminate H;
        exfalso; now apply H.
  - intros H. injection H as <- _. cbn.
    repeat split; auto; try discriminate; intros H; try discriminate H;
      exfalso; now apply H.
Qed.

Lemma response_is_consistent_witness :
  let w := mkWorld [sample_registro_pago] [Some (str "down")] [] in
  let w' := mkWorld [sample_registro_pago] [] [delete_entradas] in
  let response :=
    jsonResponse (mkPayload false (delete_failure (str "down")) None) 500 in
  serve (str "POST") (ReplyValues sample_values) w = Some (response, w')
  /\ match resp_body response with
     | TextBody text =>
         text = str "ok" /\ resp_status response = 200
         /\ jsstring_eqb (str "POST") (str "OPTIONS") = true
     | JsonBody p =>
         (resp_status response = 200 \/ resp_status response = 405
          \/ resp_status response = 500)
         /\ (success p = true <-> resp_status response = 200)
         /\ (total_importado p <> None <-> resp_status response = 200)
         /\ (resp_status response = 405
             <-> jsstring_eqb (str "POST") (str "POST") = false)
         /\ jsstring_eqb (str "POST") (str "OPTIONS") = false
     end.
Proof.
  intros w w' response.
  assert (S : serve (str "POST") (ReplyValues sample_values) w
              = Some (response, w')) by (vm_compute; reflexivity).
  split; [exact S|].
  exact (@response_is_consistent (str "POST") (ReplyValues sample_values)
           w w' response S).
Defined.

Lemma Forall_prefix {A} (P : A -> Prop) (n : nat) (l : list A) :
  Forall P l -> Forall P (firstn n l).
Proof.
  intros F. revert n. induction F as [|x l Hx _ IH]; intros [|n];
    cbn [firstn]; constructor; auto.
Qed.

(** X20. In every run the calls on the store are none at all, or the
    delete of the "Entrada" rows followed by inserts: the delete is always
    first and made once, and every insert carries between 1 and 500
    records. *)
Theorem store_calls_are_delete_then_batches :
  forall (method : jsstring) (reply : SheetsReply) (w w' : World)
         (response : Response),
    serve method reply w = Some (response, w') ->
    calls w' = calls w
    \/ exists batches,
         calls w' = calls w ++ delete_entradas :: insert_calls batches
         /\ Forall (fun b => 0 < length b <= 500) batches.
Proof.
  intros method reply w w' response. unfold serve.
  destruct (jsstring_eqb method (str "OPTIONS"));
    [intros H; injection H as _ <-; now left|].
  destruct (negb (jsstring_eqb method (str "POST")));
    [intros H; injection H as _ <-; now left|].
  destruct reply as [m | code st de | | values];
    try (intros H; injection H as _ <-; now left).
  rewrite import_entradas_values, store_delete_hd. cbv zeta.
  destruct (hd None (pending w)) as [m|].
  { intros H; injection H as _ <-. right. exists []. split; [reflexivity|].
    constructor. }
  destruct (0 <? length (buildLancamentosEntrada values)) eqn:P.
  - apply Nat.ltb_lt in P.
    assert (N : buildLancamentosEntrada values <> [])
      by (intros Z; rewrite Z in P; cbn in P; lia).
    destruct (chunkArray (buildLancamentosEntrada values) 500)
      as [batches|] eqn:E; [|discriminate].
    destruct (@chunkArray_nonempty_chunks _ _ 500 batches ltac:(lia) N E)
      as [_ F].
    destruct (insert_lotes batches _) as [[c w2]|] eqn:I; [|discriminate].
    apply insert_lotes_prefix in I. destruct I as (j & C & _).
    cbn [calls] in C.
    assert (R : calls w2 = calls w ++ delete_entradas
                             :: insert_calls (firstn j batches))
      by (rewrite C, <- app_assoc; reflexivity).
    destruct c as [u|e]; intros H; injection H as _ <-; right;
      exists (firstn j batches); (split; [exact R | now apply Forall_prefix]).
  - intros H; injection H as _ <-. right. exists []. split; [reflexivity|].
    constructor.
Qed.

Lemma store_calls_are_delete_then_batches_witness :
  let w := mkWorld [sample_registro_pago] [] [] in
  let n := length (buildLancamentosEntrada sample_values) in
  let w' := mkWorld (buildLancamentosEntrada sample_values) []
              [delete_entradas;
               CallInsert (buildLancamentosEntrada sample_values)] in
  let response :=
    jsonResponse (mkPayload true (import_message n) (Some n)) 200 in
  serve (str "POST") (ReplyValues sample_values) w = Some (response, w')
  /\ (calls w' = calls w
      \/ exists batches,
           calls w' = calls w ++ delete_entradas :: insert_calls batches
           /\ Forall (fun b => 0 < length b <= 500) batches).
Proof.
  intros w n w' response.
  assert (S : serve (str "POST") (ReplyValues sample_values) w
              = Some (response, w')) by (vm_compute; reflexivity).
  split; [exact S|].
  exact (@store_calls_are_delete_then_batches (str "POST")
           (ReplyValues sample_values) w w' response S).
Defined.

(* ================================================================= *)
(** ** More on the currency rule: the commas *)

Lemma replace_first_app (a b : jsstring) :
  forallb (fun c => negb (c =? 44)%N) a = true ->
  replace_first 44 46 (a ++ 44%N :: b) = a ++ 46%N :: b.
Proof.
  induction a as [|c a IH]; [reflexivity|]. cbn [forallb app replace_first].
  intros H. apply andb_true_iff in H. destruct H as [Hc Ha].
  apply negb_true_iff in Hc. rewrite Hc. f_equal. now apply IH.
Qed.

Lemma filter_keep_numeric_commas (b : jsstring) :
  filter keep_numeric (filter (fun c => negb (c =? 44)%N) b)
  = filter keep_numeric b.
Proof.
  induction b as [|c b IH]; [reflexivity|]. cbn [filter].
  destruct (N.eqb_spec c 44) as [->|N44]; [exact IH|].
  cbn [negb filter]. now rewrite IH.
Qed.

Lemma filter_filter_comm {A} (f g : A -> bool) (l : list A) :
  filter f (filter g l) = filter g (filter f l).
Proof.
  induction l as [|x l IH]; [reflexivity|]. cbn [filter].
  destruct (f x) eqn:F, (g x) eqn:G; cbn [filter]; rewrite ?F, ?G, IH;
    reflexivity.
Qed.

(** X21. Only the first comma of an amount cell is its decimal
    separator: the commas after it are dropped like the points, so they
    can be removed without changing the result. *)
Theorem parseCurrency_later_commas_dropped :
  forall a b : jsstring,
    forallb (fun c => negb (c =? 44)%N) a = true ->
    parseCurrency (Some (a ++ 44%N :: filter (fun c => negb (c =? 44)%N) b))
    = parseCurrency (Some (a ++ 44%N :: b)).
Proof.
  intros a b H.
  assert (E : forall t, normalize_currency (a ++ 44%N :: t)
                        = filter keep_numeric
                            (filter (fun c => negb (c =? 46)%N) a)
                          ++ 46%N :: filter keep_numeric
                               (filter (fun c => negb (c =? 46)%N) t)).
  { intros t. unfold normalize_currency, strip.
    rewrite filter_app. cbn [filter N.eqb Pos.eqb negb].
    rewrite replace_first_app.
    - rewrite filter_app. cbn [filter]. change (keep_numeric 46) with true.
      reflexivity.
    - rewrite forallb_forall in *. intros c Hc. apply H.
      now apply filter_In in Hc. }
  unfold parseCurrency.
  assert (T : forall t, negb (truthy (Some (a ++ 44%N :: t))) = false)
    by (intros t; destruct a; reflexivity).
  rewrite !T, !E.
  rewrite (filter_filter_comm (fun c => negb (c =? 46)%N)
             (fun c => negb (c =? 44)%N) b).
  now rewrite filter_keep_numeric_commas.
Qed.

Lemma parseCurrency_later_commas_dropped_witness :
  forallb (fun c => negb (c =? 44)%N) (str "1") = true
  /\ parseCurrency
       (Some (str "1" ++ 44%N
                :: filter (fun c => negb (c =? 44)%N) (str "234,56")))
     = parseCurrency (Some (str "1" ++ 44%N :: str "234,56"))
  /\ parseCurrency (Some (str "1,234.56")) = parseFloat (str "1.23456").
Proof.
  split; [reflexivity|].
  split; [apply (@parseCurrency_later_commas_dropped (str "1") (str "234,56"));
          reflexivity|].
  reflexivity.
Defined.

(* ================================================================= *)
(** ** Module start-up *)

(** X22. The module starts exactly when the four required variables are
    set and not empty; otherwise it throws the message that names the
    first of them, in the order SUPABASE_URL, SUPABASE_SERVICE_ROLE_KEY,
    GOOGLE_API_KEY, GOOGLE_SHEET_RECEBIMENTOS_ID, that is missing. The
    range is the variable when it is set, even empty, and "A:V"
    otherwise. *)
Theorem module_start_fails_fast :
  forall env : Env,
    let required := ["SUPABASE_URL"; "SUPABASE_SERVICE_ROLE_KEY";
                     "GOOGLE_API_KEY";
                     "GOOGLE_SHEET_RECEBIMENTOS_ID"]%string in
    match module_start env with
    | inr cfg =>
        env (str "SUPABASE_URL") = Some (supabaseUrl cfg)
        /\ env (str "SUPABASE_SERVICE_ROLE_KEY")
           = Some (supabaseServiceRoleKey cfg)
        /\ env (str "GOOGLE_API_KEY") = Some (googleApiKey cfg)
        /\ env (str "GOOGLE_SHEET_RECEBIMENTOS_ID")
           = Some (recebimentosSheetId cfg)
        /\ Forall (fun name => truthy (env (str name)) = true) required
        /\ recebimentosRange cfg
           = match env (str "GOOGLE_SHEET_RECEBIMENTOS_RANGE") with
             | Some r => r
             | None => str "A:V"
             end
    | inl message =>
        exists before name after,
          required = before ++ name :: after
          /\ Forall (fun n => truthy (env (str n)) = true) before
          /\ truthy (env (str name)) = false
          /\ message = not_defined name
    end.
Proof.
  intros env required. unfold module_start.
  destruct (env (str "SUPABASE_URL")) as [[|u us]|] eqn:U;
    try (exists [], "SUPABASE_URL"%string; eexists;
         split; [reflexivity|]; split; [constructor|];
         split; [now rewrite U | reflexivity]).
  destruct (env (str "SUPABASE_SERVICE_ROLE_KEY")) as [[|k ks]|] eqn:K;
    try (exists ["SUPABASE_URL"%string], "SUPABASE_SERVICE_ROLE_KEY"%string;
         eexists; split; [reflexivity|];
         split; [repeat constructor; now rewrite U|];
         split; [now rewrite K | reflexivity]).
  destruct (env (str "GOOGLE_API_KEY")) as [[|a az]|] eqn:A;
    try (exists ["SUPABASE_URL"; "SUPABASE_SERVICE_ROLE_KEY"]%string,
           "GOOGLE_API_KEY"%string;
         eexists; split; [reflexivity|];
         split; [repeat constructor; [now rewrite U | now rewrite K]|];
         split; [now rewrite A | reflexivity]).
  destruct (env (str "GOOGLE_SHEET_RECEBIMENTOS_ID")) as [[|i ids]|] eqn:I;
    try (exists ["SUPABASE_URL"; "SUPABASE_SERVICE_ROLE_KEY";
                 "GOOGLE_API_KEY"]%string,
           "GOOGLE_SHEET_RECEBIMENTOS_ID"%string;
         eexists; split; [reflexivity|];
         split; [repeat constructor;
                 [now rewrite U | now rewrite K | now rewrite A]|];
         split; [now rewrite I | reflexivity]).
  cbn [supabaseUrl supabaseServiceRoleKey googleApiKey recebimentosSheetId
       recebimentosRange].
  repeat (split; [reflexivity|]). split; [|reflexivity].
  repeat constructor; [now rewrite U | now rewrite K | now rewrite A
                       | now rewrite I].
Qed.

(* ================================================================= *)
(** ** More on the currency rule: the value *)

Lemma filter_all {A} (f : A -> bool) (l : list A) :
  forallb f l = true -> filter f l = l.
Proof.
  induction l as [|x l IH]; [reflexivity|]. cbn [forallb filter].
  intros H. apply andb_true_iff in H. destruct H as [-> Hl].
  f_equal. now apply IH.
Qed.

Lemma forallb_digits_imp (f : N -> bool) (ds : jsstring) :
  (forall c, is_digit c = true -> f c = true) ->
  forallb is_digit ds = true -> forallb f ds = true.
Proof.
  intros F H. rewrite forallb_forall in *. intros c Hc. now apply F, H.
Qed.

Lemma digit_is_plain (c : N) :
  is_digit c = true ->
  negb (c =? 46)%N = true /\ negb (c =? 44)%N = true
  /\ keep_numeric c = true.
Proof.
  intros D. unfold keep_numeric. rewrite D. cbn [orb].
  unfold is_digit in D. apply andb_true_iff in D. destruct D as [L U].
  apply N.leb_le in L, U.
  repeat split; apply negb_true_iff, N.eqb_neq; lia.
Qed.

Lemma span_digits_app (ds r : jsstring) :
  forallb is_digit ds = true ->
  span is_digit (ds ++ r)
  = (ds ++ fst (span is_digit r), snd (span is_digit r)).
Proof.
  induction ds as [|c ds IH]; cbn [forallb app span].
  - intros _. now destruct (span is_digit r).
  - intros H. apply andb_true_iff in H. destruct H as [-> Hd].
    now rewrite (IH Hd).
Qed.

(** X23. An amount written as digits, a comma and digits is read as the
    decimal number with those integer and fraction digits, rounded to the
    nearest binary64 value; when that value is not finite the result is
    0. *)
Theorem parseCurrency_decimal_comma_value :
  forall ip fp : jsstring,
    ip <> [] ->
    forallb is_digit ip = true ->
    forallb is_digit fp = true ->
    let x := decimal_to_Number false (digits_value (ip ++ fp))
                               (- Z.of_nat (length fp)) in
    parseCurrency (Some (ip ++ 44%N :: fp))
    = if Number_isFinite x then x else zero.
Proof.
  intros ip fp NE Di Df x.
  assert (E : normalize_currency (ip ++ 44%N :: fp) = ip ++ 46%N :: fp).
  { assert (A : forall (f : N -> bool) ds,
               (forall c, is_digit c = true -> f c = true) ->
               forallb is_digit ds = true -> filter f ds = ds)
      by (intros f ds F H; apply filter_all;
          now apply (forallb_digits_imp f ds F)).
    assert (P46 : forall c, is_digit c = true -> negb (c =? 46)%N = true)
      by (intros c Hc; now apply digit_is_plain in Hc).
    assert (P44 : forall c, is_digit c = true -> negb (c =? 44)%N = true)
      by (intros c Hc; now apply digit_is_plain in Hc).
    assert (PK : forall c, is_digit c = true -> keep_numeric c = true)
      by (intros c Hc; now apply digit_is_plain in Hc).
    unfold normalize_currency, strip.
    rewrite filter_app. cbn [filter N.eqb Pos.eqb negb].
    rewrite (A _ ip P46 Di), (A _ fp P46 Df).
    rewrite replace_first_app by now apply (forallb_digits_imp _ ip P44).
    rewrite filter_app. cbn [filter]. change (keep_numeric 46) with true.
    cbv iota. now rewrite (A _ ip PK Di), (A _ fp PK Df). }
  unfold parseCurrency.
  destruct ip as [|d ip]; [congruence|].
  cbn [app truthy negb]. cbn [app] in E. rewrite E.
  cbn [forallb] in Di. apply andb_true_iff in Di. destruct Di as [Dd Di].
  assert (P : parseFloat (d :: ip ++ 46%N :: fp) = x).
  { unfold parseFloat.
    rewrite trimStart_fixed by now apply digit_not_space.
    assert (Nd : (d =? 45)%N = false /\ (d =? 43)%N = false
                 /\ (73 =? d)%N = false).
    { unfold is_digit in Dd. apply andb_true_iff in Dd. destruct Dd as [L U].
      apply N.leb_le in L, U. repeat split; apply N.eqb_neq; lia. }
    destruct Nd as (N45 & N43 & N73).
    unfold take_sign. rewrite N45, N43.
    change (str "Infinity") with (73%N :: str "nfinity").
    cbn [starts_with]. rewrite N73. cbn [andb].
    change (d :: ip ++ 46%N :: fp) with ((d :: ip) ++ 46%N :: fp).
    rewrite span_digits_app by (cbn [forallb]; now rewrite Dd, Di).
    cbn [span is_digit N.leb N.compare Pos.compare Pos.compare_cont andb
         fst snd N.eqb Pos.eqb].
    rewrite app_nil_r.
    rewrite <- (app_nil_r fp) at 1. rewrite span_digits_app by exact Df.
    cbn [span fst snd]. rewrite app_nil_r. cbn [exponent_part app].
    unfold x. rewrite Z.sub_0_l. reflexivity. }
  now rewrite P.
Qed.

Lemma parseCurrency_decimal_comma_value_witness :
  str "1234" <> [] /\ forallb is_digit (str "1234") = true
  /\ forallb is_digit (str "56") = true
  /\ parseCurrency (Some (str "1234" ++ 44%N :: str "56"))
     = (let x := decimal_to_Number false (digits_value (str "1234" ++ str "56"))
                                   (- Z.of_nat (length (str "56"))) in
        if Number_isFinite x then x else zero)
  /\ decimal_to_Number false 123456 (-2) = n1234_56.
Proof.
  split; [discriminate|]. split; [reflexivity|]. split; [reflexivity|].
  split; [|reflexivity].
  apply (@parseCurrency_decimal_comma_value (str "1234") (str "56"));
    [discriminate | reflexivity | reflexivity].
Defined.
